(** * Student attendance analyzer: shallow embedding of [main.py]

    The program is a tkinter form around three pandas computations:
    - [analyze_attendance]: per-student attendance percentage
      ([groupby("Student Name")["Status"].apply(...)]), [idxmax], [idxmin]
      and [mean] of the resulting Series;
    - [analyze_with_date_filter]: parses the [Date] column in place and
      keeps the rows whose date lies between the two entry fields;
    - [load_and_analyze]: reads a CSV into [self.df] and analyses it.

    Modelling choices.
    - A DataFrame is a header ([columns]) and a list of rows, each row a
      list of cells in header order.  A cell holds a str, an integer (a
      cell of a column that [read_csv] typed as int64, which it does when
      every field of the column is an integer), a timestamp (after
      [pd.to_datetime]) or [NaN] (an empty field; [NaT] in a datetime
      column).  Columns that [read_csv] types as floats or Booleans are
      outside the model.
    - Floats are idealised as exact rationals ([Q]): rounding of IEEE
      doubles is outside the model, [==] on [Q] stands for equal floats.
    - Timestamps are integers (nanoseconds since the epoch, as pandas
      stores [datetime64[ns]]); they carry no time zone (a Date text with a
      UTC offset, which pandas turns into a timezone-aware value that cannot
      be compared with the entries, is outside the model).
    - [datetime.strptime] and the text parser of [pd.to_datetime] are library
      code: they are parameters of the development.  [pd.to_datetime] is
      applied cell by cell.
    - The message boxes, the saved chart, the CSV copy and the PDF are
      recorded as events of the application state; the calls that produce
      the chart and the files ([plt], [seaborn], [to_csv], [doc.build]) are
      assumed not to raise. *)

From Stdlib Require Import ZArith QArith Lqa Lia.
From Stdlib Require Import Strings.String Strings.Ascii.
From stdpp Require Import base tactics option list sorting strings pretty.

Local Open Scope string_scope.
Local Open Scope list_scope.

(** ** Exceptions and results *)

(** The Python exceptions the program can meet, with their message. *)
Inductive exn : Type :=
| ValueError (msg : string)
| KeyError (key : string)
| AttributeError (msg : string)
| TypeError (msg : string)
| OSError (msg : string).

Inductive result (A : Type) : Type :=
| Ok (a : A)
| Raise (e : exn).
Arguments Ok {A} a.
Arguments Raise {A} e.

Definition rbind {A B} (m : result A) (k : A -> result B) : result B :=
  match m with
  | Ok a => k a
  | Raise e => Raise e
  end.

Declare Scope py_scope.
Delimit Scope py_scope with py.
Notation "'let?' x ':=' m 'in' k" := (rbind m (fun x => k))
  (at level 10, x name, m at level 100, k at level 200) : py_scope.
Local Open Scope py_scope.

Fixpoint mapR {A B} (f : A -> result B) (l : list A) : result (list B) :=
  match l with
  | [] => Ok []
  | x :: l' =>
      let? y := f x in
      let? ys := mapR f l' in
      Ok (y :: ys)
  end.

(** ** Data frames *)

Inductive Cell : Type :=
| Text (s : string)      (* an object cell holding a str *)
| Stamp (t : Z)          (* a datetime64 value *)
| NaN                    (* missing value; NaT in a datetime column *)
| Num (n : Z).           (* a cell of an int64 column *)

Abbreviation Row := (list Cell).

Record DataFrame : Type := mkDataFrame {
  columns : list string;
  rows : list Row
}.

(** Exact rationals stand for Python floats. *)
Definition Series := list (string * Q).

Definition Qlt_bool (x y : Q) : bool := negb (Qle_bool y x).

(** [Index.get_loc]: position of a label, [KeyError] when absent. *)
Fixpoint get_loc (cols : list string) (c : string) : result nat :=
  match cols with
  | [] => Raise (KeyError c)
  | c' :: cols' =>
      if String.eqb c' c then Ok O
      else let? i := get_loc cols' c in Ok (S i)
  end.

(** The cell of a row at a position; rows shorter than the header are
    padded with NaN, as [read_csv] does. *)
Definition cell_at (i : nat) (r : Row) : Cell := default NaN (r !! i).

(** [df[c]] *)
Definition getitem (d : DataFrame) (c : string) : result (list Cell) :=
  let? i := get_loc (columns d) c in
  Ok (map (cell_at i) (rows d)).

(** A row padded to reach position [i], so that the cell can be written. *)
Definition pad_to (i : nat) (r : Row) : Row :=
  r ++ replicate (S i - length r) NaN.

(** [df[c] = vals] for a column that exists. *)
Definition setitem (d : DataFrame) (c : string) (vals : list Cell)
  : result DataFrame :=
  let? i := get_loc (columns d) c in
  Ok {| columns := columns d;
        rows := zip_with (fun r v => <[i := v]> (pad_to i r)) (rows d) vals |}.

(** [df[mask]]: the rows where the boolean mask is True. *)
Fixpoint select {A} (l : list A) (mask : list bool) : list A :=
  match l, mask with
  | x :: l', b :: mask' => if b then x :: select l' mask' else select l' mask'
  | _, _ => []
  end.

Definition getitem_mask (d : DataFrame) (mask : list bool) : DataFrame :=
  {| columns := columns d; rows := select (rows d) mask |}.

(** [df.empty]: some axis has length zero. *)
Definition empty (d : DataFrame) : bool :=
  match columns d, rows d with
  | [], _ | _, [] => true
  | _, _ => false
  end.

(** [required.issubset(df.columns)] *)
Definition issubset (req cols : list string) : bool :=
  forallb (fun c => existsb (String.eqb c) cols) req.

(** ** The pandas operations of [analyze_attendance] *)

(** Lexicographic order of Python strings (byte order of the encoded text). *)
Definition str_le (s1 s2 : string) : Prop := String.leb s1 s2 = true.

Global Instance str_le_dec (s1 s2 : string) : Decision (str_le s1 s2) :=
  bool_eq_dec (String.leb s1 s2) true.

(** The group labels of [groupby(..., sort=True)]: the distinct keys in
    ascending order. *)
Definition group_labels (keys : list string) : list string :=
  merge_sort str_le (remove_dups keys).

(** The grouping key of a cell of a str key column: rows whose key is missing
    are dropped ([dropna=True]).  Only the [Date] column ever holds
    timestamps and [read_csv] never mixes integers with strs or blanks in a
    column, so a timestamp or integer key is not reachable here; it is
    reported as an error. *)
Definition group_key (c : Cell) : result (option string) :=
  match c with
  | Text s => Ok (Some s)
  | NaN => Ok None
  | Stamp _ => Raise (TypeError "unsupported key")
  | Num _ => Raise (TypeError "unsupported key")
  end.

Definition key_is (k : string) (key : option string) : bool :=
  match key with
  | Some k' => String.eqb k' k
  | None => false
  end.

(** [groupby(keys)[vals].apply(f)]: one entry per label, [f] applied to the
    values of the rows carrying that label, in row order. *)
Definition groupby_apply (keys : list (option string)) (vals : list Cell)
    (f : list Cell -> Q) : Series :=
  map (fun k => (k, f (select vals (map (key_is k) keys))))
      (group_labels (omap id keys)).

(** An int64 key column: [read_csv] gives this dtype to a column with at
    least one row whose fields are all integers. *)
Definition is_num (c : Cell) : bool :=
  match c with
  | Num _ => true
  | _ => false
  end.

Definition int_column (col : list Cell) : bool :=
  match col with
  | [] => false
  | _ :: _ => forallb is_num col
  end.

Definition int_of (c : Cell) : Z :=
  match c with
  | Num n => n
  | _ => 0%Z
  end.

(** The same on an int64 key column: the labels are the distinct integers in
    ascending numeric order; a label is shown as its decimal text. *)
Definition groupby_apply_int (keys : list Z) (vals : list Cell)
    (f : list Cell -> Q) : Series :=
  map (fun k => (pretty k, f (select vals (map (Z.eqb k) keys))))
      (merge_sort Z.le (remove_dups keys)).

(** [x == "Present"] on one cell: case-sensitive equality with a str. *)
Definition cell_eqb (c : Cell) (s : string) : bool :=
  match c with
  | Text s' => String.eqb s' s
  | _ => false
  end.

Definition Qof_bool (b : bool) : Q := if b then 1%Q else 0%Q.

Definition Qsum (l : list Q) : Q := fold_right Qplus 0%Q l.

(** [Series.mean()].  It is only evaluated on non-empty data here (a group
    has at least one row, and [idxmax] raises first on an empty summary). *)
Definition mean (l : list Q) : Q :=
  (Qsum l / inject_Z (Z.of_nat (length l)))%Q.

(** The lambda of line 65. *)
Definition present_rate (x : list Cell) : Q :=
  (mean (map (fun c => Qof_bool (cell_eqb c "Present")) x) * 100)%Q.

(** Line 65. *)
Definition attendance_summary (d : DataFrame) : result Series :=
  let? names := getitem d "Student Name" in
  let? status := getitem d "Status" in
  if int_column names
  then Ok (groupby_apply_int (map int_of names) status present_rate)
  else
    let? keys := mapR group_key names in
    Ok (groupby_apply keys status present_rate).

(** The first entry that no later entry beats strictly ([better v best]
    says that [v] replaces the running best). *)
Fixpoint first_best (better : Q -> Q -> bool) (best : string * Q)
    (rest : Series) : string * Q :=
  match rest with
  | [] => best
  | kv :: rest' =>
      first_best better (if better (snd kv) (snd best) then kv else best) rest'
  end.

(** [Series.idxmax()]: label of the first occurrence of the maximum. *)
Definition idxmax (s : Series) : result string :=
  match s with
  | [] => Raise (ValueError "attempt to get argmax of an empty sequence")
  | kv :: rest => Ok (fst (first_best (fun v best => Qlt_bool best v) kv rest))
  end.

(** [Series.idxmin()]: label of the first occurrence of the minimum. *)
Definition idxmin (s : Series) : result string :=
  match s with
  | [] => Raise (ValueError "attempt to get argmin of an empty sequence")
  | kv :: rest => Ok (fst (first_best (fun v best => Qlt_bool v best) kv rest))
  end.

(** [series[label]] *)
Fixpoint loc (s : Series) (k : string) : result Q :=
  match s with
  | [] => Raise (KeyError k)
  | (k', v) :: s' => if String.eqb k' k then Ok v else loc s' k
  end.

(** ** The application: state, events and exceptions *)

(** The text shown by a message box, kept structured (the f-strings format
    the numbers with two decimals). *)
Inductive Message : Type :=
| Literal (s : string)
| FileLoaded (name : string)
| SummaryLines (s : Series)
| Insights (most : string) (most_pct : Q)
           (least : string) (least_pct : Q) (overall : Q)
| Failure (what : string) (e : exn).

Inductive Event : Type :=
| showinfo (title : string) (m : Message)
| showerror (title : string) (m : Message)
| showwarning (title : string) (m : Message)
| savefig (path : string) (bars : Series)
| to_csv (path : string) (d : DataFrame)
| build_pdf (path : string) (header : list string) (table : list Row).

(** [self.df] (absent until a file is loaded) and what the user has seen,
    oldest first. *)
Record App : Type := mkApp {
  df : option DataFrame;
  events : list Event
}.

(** Handlers run in a state monad with exceptions; a raised exception keeps
    the state reached so far. *)
Definition M (A : Type) : Type := App -> result A * App.

Definition ret {A} (a : A) : M A := fun st => (Ok a, st).

Definition bind {A B} (m : M A) (k : A -> M B) : M B :=
  fun st =>
    match m st with
    | (Ok a, st') => k a st'
    | (Raise e, st') => (Raise e, st')
    end.

Definition raise {A} (e : exn) : M A := fun st => (Raise e, st).

Definition lift {A} (r : result A) : M A := fun st => (r, st).

Definition emit (e : Event) : M unit :=
  fun st => (Ok tt, {| df := df st; events := events st ++ [e] |}).

(** Reading [self.df]: AttributeError when the attribute was never set. *)
Definition get_df : M DataFrame :=
  fun st =>
    match df st with
    | Some d => (Ok d, st)
    | None =>
        (Raise (AttributeError "'AttendanceAnalyzerApp' object has no attribute 'df'"),
         st)
    end.

Definition set_df (d : DataFrame) : M unit :=
  fun st => (Ok tt, {| df := Some d; events := events st |}).

(** [try: body except Exception as e: handler e] *)
Definition try_except {A} (body : M A) (handler : exn -> M A) : M A :=
  fun st =>
    match body st with
    | (Ok a, st') => (Ok a, st')
    | (Raise e, st') => handler e st'
    end.

Notation "x <- m ;; k" := (bind m (fun x => k))
  (at level 100, m at next level, right associativity) : py_scope.
Notation "m ;;; k" := (bind m (fun _ => k))
  (at level 100, right associativity) : py_scope.

Definition required_columns : list string := ["Student Name"; "Date"; "Status"].

(** [analyze_attendance(self, df)], lines 58-95. *)
Definition analyze_attendance (d : DataFrame) : M unit :=
  try_except
    ((if negb (issubset required_columns (columns d))
      then raise (ValueError
             "CSV must contain 'Student Name', 'Date', and 'Status' columns.")
      else ret tt) ;;;
     summary <- lift (attendance_summary d) ;;
     emit (savefig "reports/attendance_summary.png" summary) ;;;
     emit (showinfo "Attendance Summary" (SummaryLines summary)) ;;;
     most_regular <- lift (idxmax summary) ;;
     least_regular <- lift (idxmin summary) ;;
     let overall_attendance := mean (map snd summary) in
     most_pct <- lift (loc summary most_regular) ;;
     least_pct <- lift (loc summary least_regular) ;;
     emit (showinfo "Attendance Insights"
             (Insights most_regular most_pct least_regular least_pct
                       overall_attendance)))
    (fun e => emit (showerror "Error" (Failure "Failed to analyze attendance" e))).

(** [os.path.basename]: what follows the last slash. *)
Fixpoint basename (p : string) : string :=
  match p with
  | EmptyString => EmptyString
  | String c p' =>
      if existsb (Ascii.eqb "/"%char) (list_ascii_of_string p') then basename p'
      else if Ascii.eqb c "/"%char then p' else p
  end.

(** [load_and_analyze(self)], lines 44-56.  [file_path] is what the file
    dialog returned and [csv] what [pd.read_csv] does on that file. *)
Definition load_and_analyze (file_path : string) (csv : result DataFrame)
  : M unit :=
  if String.eqb file_path "" then ret tt
  else
    try_except
      (d <- lift csv ;;
       set_df d ;;;
       d <- get_df ;;
       emit (to_csv ("data/" ++ basename file_path) d) ;;;
       emit (showinfo "File Loaded" (FileLoaded (basename file_path))) ;;;
       d <- get_df ;;
       analyze_attendance d)
      (fun e => emit (showerror "Error" (Failure "Failed to load file" e))).

(** [export_report_pdf(self)], lines 120-150.  Building the table and the
    document is assumed not to raise, so the handler's try/except has
    nothing to catch here. *)
Definition export_report_pdf : M unit :=
  fun st =>
    match df st with
    | None =>
        emit (showwarning "No Data"
                (Literal "Please upload and analyze attendance data first.")) st
    | Some d =>
        (emit (build_pdf "reports/attendance_report.pdf" (columns d) (rows d)) ;;;
         emit (showinfo "Report Exported"
                 (Literal "PDF report saved to: reports/attendance_report.pdf"))) st
    end.

(** ** The date filter *)

(** [pd.to_datetime] on one cell; [parse] is the library's text parser. *)
Definition to_datetime_cell (parse : string -> option Z) (c : Cell)
  : result Cell :=
  match c with
  | Text s =>
      match parse s with
      | Some t => Ok (Stamp t)
      | None => Raise (ValueError "Unknown datetime string format")
      end
  | Stamp t => Ok (Stamp t)
  | NaN => Ok NaN
  | Num n => Ok (Stamp n)   (* integers are nanoseconds since the epoch *)
  end.

Definition to_datetime (parse : string -> option Z) (col : list Cell)
  : result (list Cell) :=
  mapR (to_datetime_cell parse) col.

(** [col >= t] and [col <= t] for a datetime scalar: comparisons with NaT are
    False, comparing a str or an integer with a datetime is a TypeError. *)
Definition cmp_scalar (test : Z -> Z -> bool) (col : list Cell) (t : Z)
  : result (list bool) :=
  mapR (fun c =>
          match c with
          | Stamp x => Ok (test x t)
          | NaN => Ok false
          | Text _ | Num _ =>
              Raise (TypeError "Invalid comparison between dtype=object and datetime")
          end) col.

Definition ge_scalar := cmp_scalar Z.geb.
Definition le_scalar := cmp_scalar Z.leb.

(** [m1 & m2] *)
Definition mask_and (m1 m2 : list bool) : list bool := zip_with andb m1 m2.

(** Lines 108-109 on a frame: the frame with its [Date] column parsed, and
    the rows in the interval. *)
Definition filter_by_range (parse : string -> option Z) (d : DataFrame)
    (start_date end_date : Z) : result (DataFrame * DataFrame) :=
  let? col := getitem d "Date" in
  let? dates := to_datetime parse col in
  let? d' := setitem d "Date" dates in
  let? lhs := getitem d' "Date" in
  let? m1 := ge_scalar lhs start_date in
  let? rhs := getitem d' "Date" in
  let? m2 := le_scalar rhs end_date in
  Ok (d', getitem_mask d' (mask_and m1 m2)).

Section Handlers.

(** [datetime.strptime(s, "%Y-%m-%d")] and the parser of [pd.to_datetime]. *)
Variable strptime : string -> option Z.
Variable parse_datetime : string -> option Z.

Definition strptime_ymd (s : string) : result Z :=
  match strptime s with
  | Some t => Ok t
  | None => Raise (ValueError "time data does not match format '%Y-%m-%d'")
  end.

(** [analyze_with_date_filter(self)], lines 97-118; the two arguments are
    the contents of the entry fields. *)
Definition analyze_with_date_filter (start_text end_text : string) : M unit :=
  try_except
    ((if negb (negb (String.eqb start_text "") && negb (String.eqb end_text ""))
      then raise (ValueError "Please enter both start and end dates.")
      else ret tt) ;;;
     start_date <- lift (strptime_ymd start_text) ;;
     end_date <- lift (strptime_ymd end_text) ;;
     d <- get_df ;;
     col <- lift (getitem d "Date") ;;
     dates <- lift (to_datetime parse_datetime col) ;;
     d <- get_df ;;
     d' <- lift (setitem d "Date" dates) ;;
     set_df d' ;;;
     d <- get_df ;;
     lhs <- lift (getitem d "Date") ;;
     m1 <- lift (ge_scalar lhs start_date) ;;
     d <- get_df ;;
     rhs <- lift (getitem d "Date") ;;
     m2 <- lift (le_scalar rhs end_date) ;;
     d <- get_df ;;
     let filtered_df := getitem_mask d (mask_and m1 m2) in
     if empty filtered_df
     then emit (showinfo "No Data"
                  (Literal "No records found for the selected date range."))
     else analyze_attendance filtered_df)
    (fun e => emit (showerror "Error" (Failure "Failed to filter data" e))).

End Handlers.

(** ** A concrete date parser for the examples

    Strict [YYYY-MM-DD] with ASCII digits and a valid calendar day, mapped to
    midnight of that day in nanoseconds since 1970-01-01.  Both
    [datetime.strptime(_, "%Y-%m-%d")] and [pd.to_datetime] accept these texts
    with this value (they accept more). *)

Definition digit (c : ascii) : option Z :=
  let n := (Z.of_nat (nat_of_ascii c) - 48)%Z in
  if ((0 <=? n) && (n <=? 9))%Z then Some n else None.

Fixpoint number (acc : Z) (l : list ascii) : option Z :=
  match l with
  | [] => Some acc
  | c :: l' =>
      match digit c with
      | Some n => number (acc * 10 + n)%Z l'
      | None => None
      end
  end.

Definition is_leap (y : Z) : bool :=
  ((y mod 4 =? 0) && (negb (y mod 100 =? 0) || (y mod 400 =? 0)))%Z.

Definition days_in_month (y m : Z) : Z :=
  (if m =? 2 then (if is_leap y then 29 else 28)
   else if (m =? 4) || (m =? 6) || (m =? 9) || (m =? 11) then 30
   else 31)%Z.

(** Days between 1970-01-01 and a civil date. *)
Definition days_from_civil (y m d : Z) : Z :=
  (let y' := if m <=? 2 then y - 1 else y in
   let era := y' / 400 in
   let yoe := y' - era * 400 in
   let doy := (153 * (if 2 <? m then m - 3 else m + 9) + 2) / 5 + d - 1 in
   let doe := yoe * 365 + yoe / 4 - yoe / 100 + doy in
   era * 146097 + doe - 719468)%Z.

Definition iso_date (s : string) : option Z :=
  match list_ascii_of_string s with
  | [y1; y2; y3; y4; "-"%char; m1; m2; "-"%char; d1; d2] =>
      match number 0 [y1; y2; y3; y4], number 0 [m1; m2], number 0 [d1; d2] with
      | Some y, Some m, Some d =>
          if ((1 <=? y) && (1 <=? m) && (m <=? 12)
              && (1 <=? d) && (d <=? days_in_month y m))%Z
          then Some (days_from_civil y m d * 86400000000000)%Z
          else None
      | _, _, _ => None
      end
  | _ => None
  end.

Definition header : list string := ["Student Name"; "Date"; "Status"].

Definition record (name date status : string) : Row :=
  [Text name; Text date; Text status].

(** The four records of the worked example. *)
Definition example_records : DataFrame :=
  {| columns := header;
     rows := [ record "Alice" "2024-01-01" "Present";
               record "Alice" "2024-01-02" "Absent";
               record "Bob" "2024-01-01" "Present";
               record "Bob" "2024-01-02" "Present" ] |}.

Definition fresh : App := {| df := None; events := [] |}.

(** Midnight of 2024-01-01 and of 2024-01-02, in nanoseconds. *)
Definition jan1 : Z := 1704067200000000000.
Definition jan2 : Z := 1704153600000000000.

(** The application once [example_records] has been loaded. *)
Definition loaded : App := {| df := Some example_records; events := [] |}.

(** An upload without the [Status] column, and a header-only upload. *)
Definition no_status : DataFrame :=
  {| columns := ["Student Name"; "Date"];
     rows := [ [Text "Alice"; Text "2024-01-01"] ] |}.

Definition header_only : DataFrame := {| columns := header; rows := [] |}.

(** The messages of the program that the properties mention. *)
Definition no_data : Event :=
  showinfo "No Data" (Literal "No records found for the selected date range.").

Definition analysis_failed (e : exn) : Event :=
  showerror "Error" (Failure "Failed to analyze attendance" e).

Definition load_failed (e : exn) : Event :=
  showerror "Error" (Failure "Failed to load file" e).

Definition missing_columns : exn :=
  ValueError "CSV must contain 'Student Name', 'Date', and 'Status' columns.".

Definition empty_argmax : exn :=
  ValueError "attempt to get argmax of an empty sequence".

(** Three records whose Status differs in case only. *)
Definition mixed_case : DataFrame :=
  {| columns := header;
     rows := [ record "Chloe" "2024-03-04" "Present";
               record "Chloe" "2024-03-05" "present";
               record "Chloe" "2024-03-06" "PRESENT" ] |}.

(** One record for Dana (Present) and three for Eli (none Present). *)
Definition uneven : DataFrame :=
  {| columns := header;
     rows := [ record "Dana" "2024-03-04" "Present";
               record "Eli" "2024-03-04" "Absent";
               record "Eli" "2024-03-05" "Absent";
               record "Eli" "2024-03-06" "Late" ] |}.

(** Three students with the same percentage, listed in descending order of
    name, and one student below them. *)
Definition tied : DataFrame :=
  {| columns := header;
     rows := [ record "Zoe" "2024-03-04" "Present";
               record "Mia" "2024-03-04" "Present";
               record "Ada" "2024-03-04" "Present";
               record "Bo" "2024-03-04" "Absent";
               record "Zoe" "2024-03-05" "Absent";
               record "Mia" "2024-03-05" "Absent";
               record "Ada" "2024-03-05" "Absent";
               record "Bo" "2024-03-05" "Absent" ] |}.

(** ** Records seen through the header *)

(** The cell of a row under a column label (NaN when the column is absent). *)
Definition field (d : DataFrame) (c : string) (r : Row) : Cell :=
  match get_loc (columns d) c with
  | Ok i => cell_at i r
  | Raise _ => NaN
  end.

Definition is_text (c : Cell) : bool :=
  match c with
  | Text _ => true
  | _ => false
  end.

(** Every record carries a student name. *)
Definition named (d : DataFrame) : bool :=
  match getitem d "Student Name" with
  | Ok names => forallb is_text names
  | Raise _ => false
  end.

(** The records of a student, and those among some records that are marked
    Present. *)
Definition records_of (d : DataFrame) (name : string) : list Row :=
  List.filter (fun r => cell_eqb (field d "Student Name" r) name) (rows d).

Definition present_in (d : DataFrame) (rs : list Row) : list Row :=
  List.filter (fun r => cell_eqb (field d "Status" r) "Present") rs.

(** 100 x (Present records of the student) / (records of the student). *)
Definition percentage (d : DataFrame) (name : string) : Q :=
  (100 * inject_Z (Z.of_nat (length (present_in d (records_of d name))))
   / inject_Z (Z.of_nat (length (records_of d name))))%Q.

(** The student a cell names, if any. *)
Definition key_of (c : Cell) : option string :=
  match c with
  | Text s => Some s
  | _ => None
  end.

(** The students of a frame, in ascending order, and the value the lambda of
    line 65 takes on the records of a student. *)
Definition students (d : DataFrame) : list string :=
  group_labels (omap key_of (map (field d "Student Name") (rows d))).

Definition rate (d : DataFrame) (name : string) : Q :=
  present_rate (map (field d "Status") (records_of d name)).

(** The date of a record lies in the inclusive interval. *)
Definition dated_within (d : DataFrame) (start_date end_date : Z) (r : Row)
  : bool :=
  match field d "Date" r with
  | Stamp t => (start_date <=? t)%Z && (t <=? end_date)%Z
  | _ => false
  end.

(** The date of a record is exactly [t]. *)
Definition dated_on (d : DataFrame) (t : Z) (r : Row) : bool :=
  match field d "Date" r with
  | Stamp x => (x =? t)%Z
  | _ => false
  end.

(** [d'] is [d] with its [Date] column parsed: same header, same number of
    rows in the same order, every cell outside [Date] unchanged and every
    [Date] cell replaced by what [pd.to_datetime] makes of it. *)
Definition date_parsed (parse : string -> option Z) (d d' : DataFrame) : Prop :=
  columns d' = columns d
  /\ length (rows d') = length (rows d)
  /\ forall n r r',
       rows d !! n = Some r -> rows d' !! n = Some r' ->
       (forall c, c <> "Date" -> field d' c r' = field d c r)
       /\ to_datetime_cell parse (field d "Date" r) = Ok (field d' "Date" r').

(** A cell of a datetime column: a timestamp or NaT. *)
Definition is_datetime (c : Cell) : bool :=
  match c with
  | Stamp _ | NaN => true
  | Text _ | Num _ => false
  end.

(** A comparison of one cell with a datetime scalar. *)
Definition test_cell (test : Z -> Z -> bool) (t : Z) (c : Cell) : bool :=
  match c with
  | Stamp x => test x t
  | _ => false
  end.

(** The frame after line 108 and the frame selected by line 109. *)
Definition with_dates (d : DataFrame) (i : nat) (dates : list Cell) : DataFrame :=
  {| columns := columns d;
     rows := zip_with (fun r v => <[i := v]> (pad_to i r)) (rows d) dates |}.

Definition in_range (d : DataFrame) (start_date end_date : Z) : DataFrame :=
  {| columns := columns d;
     rows := List.filter (dated_within d start_date end_date) (rows d) |}.

(** A computation that leaves [self.df] as it found it. *)
Definition keeps_df {A} (m : M A) : Prop :=
  forall st, df (snd (m st)) = df st.

(** Strictly ascending order of labels. *)
Definition str_lt (s1 s2 : string) : Prop := String.ltb s1 s2 = true.

(** [m], with value [pm], is the first entry of the series that carries the
    maximum: entries before it are strictly smaller, entries after it are
    not greater.  Likewise for the minimum. *)
Definition first_max (s : Series) (m : string) (pm : Q) : Prop :=
  exists l1 l2,
    s = l1 ++ (m, pm) :: l2
    /\ Forall (fun kv => (snd kv < pm)%Q) l1
    /\ Forall (fun kv => (snd kv <= pm)%Q) l2.

Definition first_min (s : Series) (m : string) (pm : Q) : Prop :=
  exists l1 l2,
    s = l1 ++ (m, pm) :: l2
    /\ Forall (fun kv => (pm < snd kv)%Q) l1
    /\ Forall (fun kv => (pm <= snd kv)%Q) l2.

(** The summary of a frame whose records are all named. *)
Definition summary_of (d : DataFrame) : Series :=
  map (fun k => (k, rate d k)) (students d).

(** What a successful analysis adds to the events. *)
Definition analysis_events (s : Series) (most : string) (most_pct : Q)
    (least : string) (least_pct : Q) : list Event :=
  [ savefig "reports/attendance_summary.png" s;
    showinfo "Attendance Summary" (SummaryLines s);
    showinfo "Attendance Insights"
      (Insights most most_pct least least_pct (mean (map snd s))) ].

(** ** Further events, exceptions and frames used by the properties *)

Definition filter_failed (e : exn) : Event :=
  showerror "Error" (Failure "Failed to filter data" e).

Definition both_dates_needed : exn :=
  ValueError "Please enter both start and end dates.".

Definition bad_entry : exn :=
  ValueError "time data does not match format '%Y-%m-%d'".

Definition no_df : exn :=
  AttributeError "'AttendanceAnalyzerApp' object has no attribute 'df'".

Definition unknown_format : exn := ValueError "Unknown datetime string format".

Definition report_events (d : DataFrame) : list Event :=
  [ build_pdf "reports/attendance_report.pdf" (columns d) (rows d);
    showinfo "Report Exported"
      (Literal "PDF report saved to: reports/attendance_report.pdf") ].

(** The date cell lies in the inclusive interval. *)
Definition cell_within (start_date end_date : Z) (c : Cell) : bool :=
  match c with
  | Stamp t => (start_date <=? t)%Z && (t <=? end_date)%Z
  | _ => false
  end.

(** Every Student Name cell is a str or blank. *)
Definition is_key (c : Cell) : bool :=
  match c with
  | Text _ | NaN => true
  | Stamp _ | Num _ => false
  end.

Definition keyed (d : DataFrame) : bool :=
  match getitem d "Student Name" with
  | Ok names => forallb is_key names
  | Raise _ => false
  end.

(** The frame without the records whose Student Name is blank. *)
Definition drop_blank (d : DataFrame) : DataFrame :=
  {| columns := columns d;
     rows := List.filter (fun r => is_text (field d "Student Name" r)) (rows d) |}.

(** A dataset without the [Date] column, one with a date that does not
    parse, and one with a record whose name is blank. *)
Definition no_date : DataFrame :=
  {| columns := ["Student Name"; "Status"];
     rows := [ [Text "Alice"; Text "Present"] ] |}.

Definition bad_date : DataFrame :=
  {| columns := header;
     rows := [ record "Alice" "2024-01-01" "Present";
               record "Bob" "first of May" "Present" ] |}.

Definition with_blank : DataFrame :=
  {| columns := header;
     rows := [ record "Alice" "2024-01-01" "Present";
               [NaN; Text "2024-01-01"; Text "Present"];
               record "Alice" "2024-01-02" "Absent" ] |}.

(** ** Names typed as integers *)

(** The Student Name column is an int64 column. *)
Definition numbered (d : DataFrame) : bool :=
  match getitem d "Student Name" with
  | Ok names => int_column names
  | Raise _ => false
  end.

(** The students of such a frame in ascending numeric order, the records of
    one of them, the value the lambda of line 65 takes on these records, and
    the summary. *)
Definition numbers (d : DataFrame) : list Z :=
  merge_sort Z.le
    (remove_dups (map int_of (map (field d "Student Name") (rows d)))).

Definition records_of_num (d : DataFrame) (n : Z) : list Row :=
  List.filter (fun r => Z.eqb n (int_of (field d "Student Name" r))) (rows d).

Definition rate_num (d : DataFrame) (n : Z) : Q :=
  present_rate (map (field d "Status") (records_of_num d n)).

Definition summary_of_num (d : DataFrame) : Series :=
  map (fun n => (pretty n, rate_num d n)) (numbers d).

(** The order in which the summary lists the names of a frame: numeric when
    the names are integers, lexicographic when they are strs. *)
Definition name_lt (d : DataFrame) (a b : string) : Prop :=
  if numbered d
  then exists x y : Z, a = pretty x /\ b = pretty y /\ (x < y)%Z
  else str_lt a b.

(** Students 10 and 2 tie at 100, student 3 is at 0. *)
Definition numeric_tied : DataFrame :=
  {| columns := header;
     rows := [ [Num 10; Text "2024-03-04"; Text "Present"];
               [Num 2; Text "2024-03-04"; Text "Present"];
               [Num 3; Text "2024-03-04"; Text "Absent"] ] |}.

(** * Properties *)

(** ** The order on labels *)

Lemma str_compare_lt_trans (a b c : string) :
  String.compare a b = Lt -> String.compare b c = Lt -> String.compare a c = Lt.
Proof.
  revert b c. induction a as [|x a IH]; intros [|y b] [|z c]; simpl;
    try discriminate; auto.
  unfold Ascii.compare.
  destruct (N.compare_spec (N_of_ascii x) (N_of_ascii y)) as [Exy|Lxy|Gxy];
    try discriminate;
    destruct (N.compare_spec (N_of_ascii y) (N_of_ascii z)) as [Eyz|Lyz|Gyz];
    try discriminate; intros H1 H2.
  - rewrite Exy, Eyz, N.compare_refl. eauto.
  - rewrite Exy. now apply N.compare_lt_iff in Lyz as ->.
  - rewrite <- Eyz. now apply N.compare_lt_iff in Lxy as ->.
  - assert (N_of_ascii x < N_of_ascii z)%N as L by lia.
    now apply N.compare_lt_iff in L as ->.
Qed.

Lemma str_le_cases (a b : string) :
  str_le a b <-> a = b \/ String.compare a b = Lt.
Proof.
  unfold str_le, String.leb. split.
  - destruct (String.compare a b) eqn:E; try discriminate; auto.
    left. now apply String.compare_eq_iff.
  - intros [-> | ->]; [|reflexivity].
    destruct (String.compare b b) eqn:E; auto.
    pose proof (String.compare_antisym b b) as A. rewrite E in A. discriminate.
Qed.

Global Instance str_le_trans : Transitive str_le.
Proof.
  intros a b c. rewrite !str_le_cases. intros [-> | L1] [-> | L2]; auto.
  right. eapply str_compare_lt_trans; eauto.
Qed.

Global Instance str_le_total : Total str_le.
Proof. intros a b. apply String.leb_total. Qed.

Global Instance str_le_antisym : AntiSymm (=) str_le.
Proof. intros a b. apply String.leb_antisym. Qed.

Lemma str_ltb_iff (a b : string) :
  String.ltb a b = true <-> str_le a b /\ a <> b.
Proof.
  unfold String.ltb. rewrite str_le_cases. split.
  - destruct (String.compare a b) eqn:E; try discriminate. intros _.
    split; [now right|]. intros ->.
    pose proof (String.compare_antisym b b) as A. rewrite E in A. discriminate.
  - intros [[-> | ->] N]; [now destruct N | reflexivity].
Qed.

(** ** Group labels: distinct, ascending, the keys present *)

Lemma group_labels_sorted (keys : list string) :
  StronglySorted str_le (group_labels keys).
Proof. apply StronglySorted_merge_sort; apply _. Qed.

Lemma group_labels_perm (keys : list string) :
  group_labels keys ≡ₚ remove_dups keys.
Proof. apply merge_sort_Permutation. Qed.

Lemma group_labels_NoDup (keys : list string) : NoDup (group_labels keys).
Proof. rewrite group_labels_perm. apply NoDup_remove_dups. Qed.

Lemma elem_of_group_labels (keys : list string) (k : string) :
  k ∈ group_labels keys <-> k ∈ keys.
Proof. rewrite group_labels_perm. apply elem_of_remove_dups. Qed.

Lemma group_labels_same (keys keys' : list string) :
  (forall k, k ∈ keys <-> k ∈ keys') -> group_labels keys = group_labels keys'.
Proof.
  intros E. apply (StronglySorted_unique str_le); try apply group_labels_sorted.
  rewrite !group_labels_perm.
  apply NoDup_Permutation; try apply NoDup_remove_dups.
  intros k. rewrite !elem_of_remove_dups. apply E.
Qed.

(** In a strongly sorted list without duplicates, what comes later is
    strictly greater. *)
Lemma sorted_later_gt (l1 l2 : list string) (a b : string) :
  StronglySorted str_le (l1 ++ a :: l2) -> NoDup (l1 ++ a :: l2) ->
  b ∈ l2 -> String.ltb a b = true.
Proof.
  intros S N Hb.
  apply StronglySorted_app_1_r in S. apply NoDup_app in N as (_ & _ & N).
  apply StronglySorted_inv in S as [_ F]. apply NoDup_cons in N as [Na _].
  apply str_ltb_iff. split.
  - rewrite Forall_forall in F. auto.
  - intros ->. auto.
Qed.

(** ** Columns and masks *)

Lemma get_loc_present (cols : list string) (c : string) :
  existsb (String.eqb c) cols = true -> exists i, get_loc cols c = Ok i.
Proof.
  induction cols as [|c' cols IH]; simpl; [discriminate|].
  rewrite (String.eqb_sym c c'). destruct (String.eqb c' c); simpl; eauto.
  intros H. destruct (IH H) as [i ->]. simpl. eauto.
Qed.

Lemma get_loc_absent (cols : list string) (c : string) :
  existsb (String.eqb c) cols = false -> get_loc cols c = Raise (KeyError c).
Proof.
  induction cols as [|c' cols IH]; simpl; [reflexivity|].
  rewrite (String.eqb_sym c c'). destruct (String.eqb c' c); simpl;
    [discriminate|].
  intros H. now rewrite (IH H).
Qed.

Lemma required_present (cols : list string) :
  issubset required_columns cols = true ->
  exists i j k, get_loc cols "Student Name" = Ok i
                /\ get_loc cols "Date" = Ok j
                /\ get_loc cols "Status" = Ok k.
Proof.
  unfold issubset, required_columns. cbn [forallb].
  rewrite !andb_true_iff. intros (H1 & H2 & H3 & _).
  apply get_loc_present in H1 as [i ?], H2 as [j ?], H3 as [k ?]. eauto 10.
Qed.

Lemma getitem_field (d : DataFrame) (c : string) (i : nat) :
  get_loc (columns d) c = Ok i ->
  getitem d c = Ok (map (field d c) (rows d)).
Proof.
  intros E. unfold getitem, field. rewrite E. reflexivity.
Qed.

Lemma select_map_filter {A B} (g : A -> B) (f : A -> bool) (l : list A) :
  select (map g l) (map f l) = map g (List.filter f l).
Proof.
  induction l as [|x l IH]; simpl; [reflexivity|].
  destruct (f x); simpl; now rewrite IH.
Qed.

Lemma select_filter {A} (f : A -> bool) (l : list A) :
  select l (map f l) = List.filter f l.
Proof.
  rewrite <- (map_id l) at 1. rewrite select_map_filter. apply map_id.
Qed.

(** ** Keys of named records *)

Lemma mapR_group_key (cells : list Cell) (keys : list (option string)) :
  mapR group_key cells = Ok keys -> keys = map key_of cells.
Proof.
  revert keys. induction cells as [|c cells IH]; simpl; intros keys.
  - now intros [= <-].
  - destruct c; simpl; try discriminate;
      destruct (mapR group_key cells); simpl; try discriminate;
      intros [= <-]; f_equal; auto.
Qed.

Lemma mapR_group_key_text (cells : list Cell) :
  forallb is_text cells = true ->
  mapR group_key cells = Ok (map key_of cells).
Proof.
  induction cells as [|c cells IH]; simpl; [reflexivity|].
  rewrite andb_true_iff. intros [T F]. destruct c; try discriminate.
  simpl. now rewrite (IH F).
Qed.

Lemma key_is_key_of (k : string) (c : Cell) :
  key_is k (key_of c) = cell_eqb c k.
Proof. now destruct c. Qed.


Lemma omap_id_map {A B} (f : A -> option B) (l : list A) :
  omap id (map f l) = omap f l.
Proof.
  induction l as [|x l IH]; simpl; [reflexivity|].
  destruct (f x); [f_equal|]; exact IH.
Qed.

Lemma int_column_text (col : list Cell) :
  forallb is_text col = true -> int_column col = false.
Proof.
  destruct col as [|c col]; [reflexivity|]. simpl.
  rewrite andb_true_iff. intros [T _]. now destruct c.
Qed.

Lemma attendance_summary_named (d : DataFrame) :
  issubset required_columns (columns d) = true ->
  named d = true ->
  attendance_summary d = Ok (summary_of d).
Proof.
  intros Hreq Hnamed.
  destruct (required_present _ Hreq) as (i & j & k & Hi & Hj & Hk).
  unfold attendance_summary, named in *.
  rewrite (getitem_field d _ i Hi) in *. rewrite (getitem_field d _ k Hk).
  simpl. rewrite (int_column_text _ Hnamed).
  rewrite (mapR_group_key_text _ Hnamed). simpl.
  unfold groupby_apply, summary_of, students, rate, records_of.
  rewrite omap_id_map.
  f_equal. apply map_ext. intros name. f_equal. f_equal.
  rewrite (map_map (field d "Student Name") key_of), map_map.
  rewrite <- select_map_filter. f_equal.
  apply map_ext. intros r. apply key_is_key_of.
Qed.

Lemma elem_of_students (d : DataFrame) (name : string) :
  name ∈ students d <->
  exists r, r ∈ rows d /\ field d "Student Name" r = Text name.
Proof.
  unfold students. rewrite elem_of_group_labels, list_elem_of_omap. split.
  - intros (c & Hc & E).
    apply list_elem_of_In, in_map_iff in Hc as (r & <- & Hr).
    exists r. split; [now apply list_elem_of_In|].
    destruct (field d "Student Name" r); now inv E.
  - intros (r & Hr & E). exists (Text name). split; [|done].
    rewrite <- E. apply list_elem_of_In, in_map, list_elem_of_In, Hr.
Qed.


(** ** Means of Boolean columns *)

Lemma Qsum_bools {A} (f : A -> bool) (l : list A) :
  Qsum (map (fun x => Qof_bool (f x)) l)
  = inject_Z (Z.of_nat (length (List.filter f l))).
Proof.
  induction l as [|x l IH]; simpl; [reflexivity|].
  rewrite IH. destruct (f x); unfold Qplus, inject_Z; simpl Qnum; simpl Qden.
  - simpl length. rewrite Nat2Z.inj_succ. f_equal. lia.
  - f_equal. lia.
Qed.


Lemma present_rate_counts {A} (g : A -> Cell) (rs : list A) :
  present_rate (map g rs)
  = (inject_Z (Z.of_nat (length (List.filter (fun r => cell_eqb (g r) "Present") rs)))
     / inject_Z (Z.of_nat (length rs)) * 100)%Q.
Proof.
  unfold present_rate, mean.
  rewrite map_map, (Qsum_bools (fun r => cell_eqb (g r) "Present")).
  now rewrite !length_map.
Qed.


Lemma rate_counts (d : DataFrame) (name : string) :
  rate d name
  = (inject_Z (Z.of_nat (length (present_in d (records_of d name))))
     / inject_Z (Z.of_nat (length (records_of d name))) * 100)%Q.
Proof. unfold rate, present_in. apply present_rate_counts. Qed.



(** ** [idxmax] and [idxmin] *)

Section FirstBest.

Variable better : Q -> Q -> bool.
Variable le : Q -> Q -> Prop.
Hypothesis better_true : forall v b, better v b = true -> ~ le v b.
Hypothesis better_false : forall v b, better v b = false -> le v b.
Hypothesis le_trans : forall x y z, le x y -> le y z -> le x z.
Hypothesis le_total : forall x y, le x y \/ le y x.

(** The selected entry splits the series: strictly worse entries before
    it, no better entry after it. *)
Lemma first_best_split (best : string * Q) (rest : Series) :
  exists l1 l2,
    best :: rest = l1 ++ first_best better best rest :: l2
    /\ Forall (fun kv => ~ le (snd (first_best better best rest)) (snd kv)) l1
    /\ Forall (fun kv => le (snd kv) (snd (first_best better best rest))) l2.
Proof.
  revert best. induction rest as [|kv rest IH]; intros best; simpl.
  - exists [], []. repeat split; constructor.
  - destruct (better (snd kv) (snd best)) eqn:B.
    + destruct (IH kv) as (l1 & l2 & E & F1 & F2).
      remember (first_best better kv rest) as r eqn:Hr. clear Hr.
      exists (best :: l1), l2. split; [simpl; now rewrite E|].
      split; [|exact F2]. constructor; [|exact F1].
      apply better_true in B.
      assert (le (snd kv) (snd r)) as K.
      { destruct l1 as [|x l1]; simpl in E.
        - injection E as -> _. destruct (le_total (snd r) (snd r)); auto.
        - injection E as <- _. apply Forall_cons in F1 as [N _].
          destruct (le_total (snd kv) (snd r)); tauto. }
      intros L. apply B. eauto.
    + destruct (IH best) as (l1 & l2 & E & F1 & F2).
      remember (first_best better best rest) as r eqn:Hr. clear Hr.
      apply better_false in B as K.
      destruct l1 as [|x l1]; simpl in E.
      * injection E as Eb El. exists [], (kv :: l2).
        split; [simpl; now rewrite <- Eb, El|].
        split; [constructor|]. constructor; [now rewrite <- Eb | exact F2].
      * injection E as Eb El. exists (x :: kv :: l1), l2.
        split; [simpl; now rewrite El, Eb|].
        split; [|exact F2].
        apply Forall_cons in F1 as [N F1].
        constructor; [exact N|]. constructor; [|exact F1].
        intros L. apply N. rewrite <- Eb. eauto.
Qed.

End FirstBest.

Lemma Qlt_bool_true (x y : Q) : Qlt_bool x y = true -> ~ (y <= x)%Q.
Proof.
  unfold Qlt_bool. rewrite negb_true_iff, <- not_true_iff_false, Qle_bool_iff.
  auto.
Qed.

Lemma Qlt_bool_false (x y : Q) : Qlt_bool x y = false -> (y <= x)%Q.
Proof. unfold Qlt_bool. rewrite negb_false_iff. apply Qle_bool_iff. Qed.

Lemma Qle_total (x y : Q) : (x <= y)%Q \/ (y <= x)%Q.
Proof. destruct (Qlt_le_dec x y); auto using Qlt_le_weak. Qed.

Lemma idxmax_first (s : Series) :
  s <> [] -> exists m pm, idxmax s = Ok m /\ first_max s m pm.
Proof.
  destruct s as [|kv rest]; [congruence|]. intros _.
  destruct (first_best_split (fun v best => Qlt_bool best v) Qle) with
    (best := kv) (rest := rest) as (l1 & l2 & E & F1 & F2).
  - intros v b. apply Qlt_bool_true.
  - intros v b. apply Qlt_bool_false.
  - intros x y z. apply Qle_trans.
  - apply Qle_total.
  - destruct (first_best _ kv rest) as [m pm] eqn:R. exists m, pm.
    split; [simpl; now rewrite R|]. exists l1, l2. split; [exact E|].
    split; [|exact F2]. eapply Forall_impl; [exact F1|].
    intros [k p]. simpl. apply Qnot_le_lt.
Qed.

Lemma idxmin_first (s : Series) :
  s <> [] -> exists m pm, idxmin s = Ok m /\ first_min s m pm.
Proof.
  destruct s as [|kv rest]; [congruence|]. intros _.
  destruct (first_best_split (fun v best => Qlt_bool v best)
                             (fun v b => (b <= v)%Q)) with
    (best := kv) (rest := rest) as (l1 & l2 & E & F1 & F2).
  - intros v b. apply Qlt_bool_true.
  - intros v b. apply Qlt_bool_false.
  - intros x y z H1 H2. eapply Qle_trans; eauto.
  - intros x y. destruct (Qle_total x y); auto.
  - destruct (first_best _ kv rest) as [m pm] eqn:R. exists m, pm.
    split; [simpl; now rewrite R|]. exists l1, l2. split; [exact E|].
    split; [|exact F2]. eapply Forall_impl; [exact F1|].
    intros [k p]. simpl. apply Qnot_le_lt.
Qed.

Lemma loc_first (l1 l2 : Series) (m : string) (pm : Q) :
  m ∉ map fst l1 -> loc (l1 ++ (m, pm) :: l2) m = Ok pm.
Proof.
  induction l1 as [|[k p] l1 IH]; simpl; intros N.
  - now rewrite String.eqb_refl.
  - apply not_elem_of_cons in N as [Nk N].
    destruct (String.eqb_spec k m) as [->|_]; [done|]. auto.
Qed.

Lemma loc_NoDup (s l1 l2 : Series) (m : string) (pm : Q) :
  NoDup (map fst s) -> s = l1 ++ (m, pm) :: l2 -> loc s m = Ok pm.
Proof.
  intros N ->. apply loc_first.
  rewrite map_app in N. simpl in N. apply NoDup_app in N as (_ & N & _).
  intros H. apply (N m H). now left.
Qed.

Lemma summary_labels (d : DataFrame) : map fst (summary_of d) = students d.
Proof. unfold summary_of. rewrite map_map. simpl. apply map_id. Qed.


(** ** Running [analyze_attendance] *)

Lemma events_app3 (es : list Event) (a b c : Event) :
  ((es ++ [a]) ++ [b]) ++ [c] = es ++ [a; b; c].
Proof. now rewrite <- !app_assoc. Qed.

Lemma analyze_attendance_run (d : DataFrame) (st : App) (s : Series)
    (m l : string) (pm pl : Q) :
  issubset required_columns (columns d) = true ->
  attendance_summary d = Ok s ->
  idxmax s = Ok m -> idxmin s = Ok l ->
  loc s m = Ok pm -> loc s l = Ok pl ->
  analyze_attendance d st
  = (Ok tt, {| df := df st;
               events := events st ++ analysis_events s m pm l pl |}).
Proof.
  intros Hreq Hs Hm Hl Hpm Hpl.
  unfold analyze_attendance, try_except, bind, lift, emit, ret, raise.
  rewrite Hreq. simpl. rewrite Hs, Hm, Hl, Hpm, Hpl. simpl.
  now rewrite events_app3.
Qed.

Lemma students_nonempty (d : DataFrame) :
  named d = true -> rows d <> [] -> students d <> [].
Proof.
  unfold named, getitem. destruct (get_loc (columns d) "Student Name") as [i|]
    eqn:Hi; simpl; [|discriminate].
  destruct (rows d) as [|r rs] eqn:Hrows; [congruence|]. simpl.
  rewrite andb_true_iff. intros [T _] _ E.
  destruct (cell_at i r) as [name| | |] eqn:Hc; try discriminate.
  assert (name ∈ students d) as Hin.
  { apply elem_of_students. exists r. rewrite Hrows. split; [now left|].
    unfold field. now rewrite Hi. }
  rewrite E in Hin. inv Hin.
Qed.

(** The analysis of a non-empty frame of named records succeeds and shows
    the summary, the first maximum and the first minimum. *)
Lemma analysis_of_named (d : DataFrame) (st : App) :
  issubset required_columns (columns d) = true ->
  named d = true -> rows d <> [] ->
  exists m pm l pl,
    first_max (summary_of d) m pm /\ first_min (summary_of d) l pl
    /\ analyze_attendance d st
       = (Ok tt, {| df := df st;
                    events := events st
                              ++ analysis_events (summary_of d) m pm l pl |}).
Proof.
  intros Hreq Hnamed Hrows.
  assert (summary_of d <> []) as Hne.
  { intros E. apply (students_nonempty d Hnamed Hrows).
    rewrite <- summary_labels, E. reflexivity. }
  destruct (idxmax_first _ Hne) as (m & pm & Hm & Fm).
  destruct (idxmin_first _ Hne) as (l & pl & Hl & Fl).
  exists m, pm, l, pl. split; [exact Fm|]. split; [exact Fl|].
  assert (NoDup (map fst (summary_of d))) as N.
  { rewrite summary_labels. apply group_labels_NoDup. }
  destruct Fm as (a1 & a2 & Ea & _). destruct Fl as (b1 & b2 & Eb & _).
  apply analyze_attendance_run; auto using attendance_summary_named.
  - eapply loc_NoDup; eauto.
  - eapply loc_NoDup; eauto.
Qed.

(** ** The attendance summary *)



Example mixed_case_percentage :
  attendance_summary mixed_case = Ok [("Chloe", 100 # 3)]
  /\ (percentage mixed_case "Chloe" == 100 # 3)%Q.
Proof. split; reflexivity. Qed.




(** The overall attendance is the mean over students (50 here), not the share
    of Present records among all records (25 here). *)
Example overall_weighs_students_equally :
  exists s m pm l pl overall,
    analyze_attendance uneven fresh
    = (Ok tt, {| df := None;
                 events := analysis_events s m pm l pl |})
    /\ overall = mean (map snd s)
    /\ (overall == 50)%Q
    /\ (present_rate (map (field uneven "Status") (rows uneven)) == 25)%Q.
Proof.
  exists [("Dana", 100 # 1); ("Eli", 0 # 3)], "Dana", (100 # 1), "Eli", (0 # 3).
  eexists. repeat split.
Qed.

(** ** Most and least regular student *)

Lemma first_max_bound (s : Series) (m : string) (pm : Q) :
  first_max s m pm -> In (m, pm) s /\ forall k p, In (k, p) s -> (p <= pm)%Q.
Proof.
  intros (l1 & l2 & -> & F1 & F2). split; [apply in_elt|].
  intros k p Hin. rewrite Forall_forall in F1, F2.
  apply in_app_or in Hin as [H|[H|H]].
  - apply Qlt_le_weak, (F1 (k, p)). now apply list_elem_of_In.
  - injection H as _ <-. apply Qle_refl.
  - apply (F2 (k, p)). now apply list_elem_of_In.
Qed.

Lemma first_min_bound (s : Series) (m : string) (pm : Q) :
  first_min s m pm -> In (m, pm) s /\ forall k p, In (k, p) s -> (pm <= p)%Q.
Proof.
  intros (l1 & l2 & -> & F1 & F2). split; [apply in_elt|].
  intros k p Hin. rewrite Forall_forall in F1, F2.
  apply in_app_or in Hin as [H|[H|H]].
  - apply Qlt_le_weak, (F1 (k, p)). now apply list_elem_of_In.
  - injection H as _ <-. apply Qle_refl.
  - apply (F2 (k, p)). now apply list_elem_of_In.
Qed.

(** C4: for a non-empty frame of named records with the required columns,
    the most regular student shown has a percentage greater than or equal to
    every percentage of the summary and the least regular one a percentage
    less than or equal to every one; each is the first such entry in the
    order of the summary (the entries before it are strictly smaller, resp.
    strictly greater). *)
Theorem C4_most_and_least_regular (d : DataFrame) (st : App) :
  issubset required_columns (columns d) = true ->
  named d = true ->
  rows d <> [] ->
  exists s most most_pct least least_pct overall,
    attendance_summary d = Ok s
    /\ analyze_attendance d st
       = (Ok tt,
          {| df := df st;
             events := events st ++
               [ savefig "reports/attendance_summary.png" s;
                 showinfo "Attendance Summary" (SummaryLines s);
                 showinfo "Attendance Insights"
                   (Insights most most_pct least least_pct overall) ] |})
    /\ In (most, most_pct) s
    /\ (forall k p, In (k, p) s -> (p <= most_pct)%Q)
    /\ In (least, least_pct) s
    /\ (forall k p, In (k, p) s -> (least_pct <= p)%Q)
    /\ first_max s most most_pct
    /\ first_min s least least_pct.
Proof.
  intros Hreq Hnamed Hrows.
  destruct (analysis_of_named d st Hreq Hnamed Hrows)
    as (m & pm & l & pl & Fm & Fl & Hrun).
  exists (summary_of d), m, pm, l, pl, (mean (map snd (summary_of d))).
  destruct (first_max_bound _ _ _ Fm) as [Im Bm].
  destruct (first_min_bound _ _ _ Fl) as [Il Bl].
  split; [now apply attendance_summary_named|].
  repeat (split; [assumption|]). assumption.
Qed.

Lemma C4_witness :
  exists s most most_pct least least_pct overall,
    attendance_summary tied = Ok s
    /\ analyze_attendance tied fresh
       = (Ok tt,
          {| df := df fresh;
             events := events fresh ++
               [ savefig "reports/attendance_summary.png" s;
                 showinfo "Attendance Summary" (SummaryLines s);
                 showinfo "Attendance Insights"
                   (Insights most most_pct least least_pct overall) ] |})
    /\ In (most, most_pct) s
    /\ (forall k p, In (k, p) s -> (p <= most_pct)%Q)
    /\ In (least, least_pct) s
    /\ (forall k p, In (k, p) s -> (least_pct <= p)%Q)
    /\ first_max s most most_pct
    /\ first_min s least least_pct.
Proof.
  apply (C4_most_and_least_regular tied fresh);
    [reflexivity | reflexivity | discriminate].
Defined.

(** The worked example: Alice 50, Bob 100, overall 75. *)
Example worked_example :
  analyze_attendance example_records fresh
  = (Ok tt,
     {| df := None;
        events := analysis_events [("Alice", 100 # 2); ("Bob", 200 # 2)]
                                  "Bob" (200 # 2) "Alice" (100 # 2) |})
  /\ (100 # 2 == 50)%Q /\ (200 # 2 == 100)%Q
  /\ (mean [100 # 2; 200 # 2] == 75)%Q.
Proof. repeat split. Qed.

Example tied_analysis :
  analyze_attendance tied fresh
  = (Ok tt,
     {| df := None;
        events :=
          analysis_events
            [("Ada", 100 # 2); ("Bo", 0 # 2); ("Mia", 100 # 2); ("Zoe", 100 # 2)]
            "Ada" (100 # 2) "Bo" (0 # 2) |}).
Proof. reflexivity. Qed.

(** ** Order of the summary and ties *)

Lemma sorted_strict (l : list string) :
  StronglySorted str_le l -> NoDup l -> StronglySorted str_lt l.
Proof.
  induction 1 as [|a l S IH F]; intros N; constructor.
  - apply IH. now apply NoDup_cons in N as [_ N].
  - apply NoDup_cons in N as [Na _]. rewrite Forall_forall in *.
    intros b Hb. apply str_ltb_iff. split; [auto|]. intros ->. auto.
Qed.

Lemma students_ascending (d : DataFrame) : StronglySorted str_lt (students d).
Proof.
  apply sorted_strict; [apply group_labels_sorted | apply group_labels_NoDup].
Qed.

Lemma tie_after (s l1 l2 : Series) (m k : string) (pm p : Q) :
  StronglySorted str_le (map fst s) -> NoDup (map fst s) ->
  s = l1 ++ (m, pm) :: l2 ->
  In (k, p) s -> ~ In (k, p) l1 -> k = m \/ str_lt m k.
Proof.
  intros S N -> Hin Hl1. rewrite map_app in S, N. simpl in S, N.
  apply in_app_or in Hin as [H|[H|H]]; [tauto | left; congruence | right].
  eapply sorted_later_gt; [exact S | exact N |].
  apply list_elem_of_In. now apply (in_map fst) in H.
Qed.

Lemma filter_Permutation {A} (f : A -> bool) (l l' : list A) :
  l ≡ₚ l' -> List.filter f l ≡ₚ List.filter f l'.
Proof.
  induction 1 as [|x l l' _ IH|x y l|l l' l'' _ IH1 _ IH2]; simpl.
  - reflexivity.
  - destruct (f x); [now constructor | exact IH].
  - destruct (f x), (f y); try reflexivity. apply perm_swap.
  - now transitivity (List.filter f l').
Qed.

Lemma field_columns (d d' : DataFrame) (c : string) (r : Row) :
  columns d' = columns d -> field d' c r = field d c r.
Proof. unfold field. now intros ->. Qed.

Lemma filter_ext_field {A} (f g : A -> bool) (l : list A) :
  (forall x, f x = g x) -> List.filter f l = List.filter g l.
Proof.
  intros E. induction l as [|x l IH]; simpl; [reflexivity|].
  now rewrite E, IH.
Qed.

Section Reordered.

Variables d d' : DataFrame.
Hypothesis same_columns : columns d' = columns d.
Hypothesis same_rows : rows d' ≡ₚ rows d.

Lemma records_of_reordered (name : string) :
  records_of d' name ≡ₚ records_of d name.
Proof.
  unfold records_of.
  rewrite (filter_ext_field _
             (fun r => cell_eqb (field d "Student Name" r) name))
    by (intros r; now rewrite (field_columns d d')).
  now apply filter_Permutation.
Qed.

Lemma rate_reordered (name : string) : rate d' name = rate d name.
Proof.
  rewrite !rate_counts. unfold present_in.
  rewrite (filter_ext_field _
             (fun r => cell_eqb (field d "Status" r) "Present")
             (records_of d' name))
    by (intros r; now rewrite (field_columns d d')).
  pose proof (records_of_reordered name) as P.
  rewrite (Permutation_length P).
  now rewrite (Permutation_length
                 (filter_Permutation
                    (fun r => cell_eqb (field d "Status" r) "Present") _ _ P)).
Qed.

Lemma students_reordered : students d' = students d.
Proof.
  apply group_labels_same. intros k.
  rewrite !list_elem_of_omap. split; intros (c & Hc & E); exists c;
    (split; [|exact E]); apply list_elem_of_In, in_map_iff in Hc as (r & <- & Hr);
    apply list_elem_of_In.
  - rewrite (field_columns d d') by done. apply in_map.
    apply list_elem_of_In. rewrite <- same_rows. now apply list_elem_of_In.
  - rewrite <- (field_columns d d') by done. apply in_map.
    apply list_elem_of_In. rewrite same_rows. now apply list_elem_of_In.
Qed.

Lemma summary_reordered : summary_of d' = summary_of d.
Proof.
  unfold summary_of. rewrite students_reordered.
  apply map_ext. intros k. now rewrite rate_reordered.
Qed.

Lemma named_reordered : named d = true -> named d' = true.
Proof.
  unfold named, getitem. rewrite same_columns.
  destruct (get_loc (columns d) "Student Name"); simpl; [|done].
  rewrite !forallb_forall. intros H c Hc.
  apply in_map_iff in Hc as (r & <- & Hr). apply H, in_map.
  apply list_elem_of_In. rewrite <- same_rows. now apply list_elem_of_In.
Qed.

Lemma analyze_attendance_reordered (st : App) :
  issubset required_columns (columns d) = true ->
  named d = true ->
  analyze_attendance d' st = analyze_attendance d st.
Proof.
  intros Hreq Hnamed.
  unfold analyze_attendance. rewrite same_columns.
  rewrite (attendance_summary_named d Hreq Hnamed).
  rewrite (attendance_summary_named d');
    [| now rewrite same_columns | now apply named_reordered].
  now rewrite summary_reordered.
Qed.

End Reordered.

(** *** Integer names *)

Lemma sorted_strict_Z (l : list Z) :
  StronglySorted Z.le l -> NoDup l -> StronglySorted Z.lt l.
Proof.
  induction 1 as [|a l S IH F]; intros N; constructor.
  - apply IH. now apply NoDup_cons in N as [_ N].
  - apply NoDup_cons in N as [Na _]. rewrite Forall_forall in *.
    intros b Hb. specialize (F b Hb).
    assert (a <> b) by (intros ->; auto). lia.
Qed.

Lemma numbers_perm (d : DataFrame) :
  numbers d
  ≡ₚ remove_dups (map int_of (map (field d "Student Name") (rows d))).
Proof. apply merge_sort_Permutation. Qed.

Lemma numbers_NoDup (d : DataFrame) : NoDup (numbers d).
Proof. rewrite numbers_perm. apply NoDup_remove_dups. Qed.

Lemma numbers_ascending (d : DataFrame) : StronglySorted Z.lt (numbers d).
Proof.
  apply sorted_strict_Z; [|apply numbers_NoDup].
  apply StronglySorted_merge_sort; apply _.
Qed.

Lemma sort_same (l l' : list Z) :
  (forall k, k ∈ l <-> k ∈ l') ->
  merge_sort Z.le (remove_dups l) = merge_sort Z.le (remove_dups l').
Proof.
  intros E. apply (StronglySorted_unique Z.le);
    try (apply StronglySorted_merge_sort; apply _).
  rewrite !merge_sort_Permutation.
  apply NoDup_Permutation; try apply NoDup_remove_dups.
  intros k. rewrite !elem_of_remove_dups. apply E.
Qed.

Lemma summary_num_labels (d : DataFrame) :
  map fst (summary_of_num d) = map pretty (numbers d).
Proof. unfold summary_of_num. now rewrite map_map. Qed.

Lemma summary_num_NoDup (d : DataFrame) : NoDup (map fst (summary_of_num d)).
Proof.
  rewrite summary_num_labels.
  change (map pretty (numbers d)) with (pretty <$> numbers d).
  apply NoDup_fmap_2; [apply _ | apply numbers_NoDup].
Qed.

Lemma attendance_summary_numbered (d : DataFrame) :
  issubset required_columns (columns d) = true ->
  numbered d = true ->
  attendance_summary d = Ok (summary_of_num d).
Proof.
  intros Hreq Hnum.
  destruct (required_present _ Hreq) as (i & j & k & Hi & Hj & Hk).
  unfold attendance_summary, numbered in *.
  rewrite (getitem_field d _ i Hi) in *. rewrite (getitem_field d _ k Hk).
  simpl. rewrite Hnum.
  unfold groupby_apply_int, summary_of_num, numbers, rate_num, records_of_num.
  f_equal. apply map_ext. intros n. f_equal. f_equal.
  rewrite !map_map. apply select_map_filter.
Qed.

Lemma numbered_not_named (d : DataFrame) :
  named d = true -> numbered d = false.
Proof.
  unfold named, numbered. destruct (getitem d "Student Name"); [|done].
  apply int_column_text.
Qed.

Lemma summary_num_nonempty (d : DataFrame) :
  numbered d = true -> summary_of_num d <> [].
Proof.
  unfold numbered, getitem.
  destruct (get_loc (columns d) "Student Name") as [i|] eqn:Hi; [|done].
  simpl. intros Hnum E.
  assert (numbers d = []) as En
      by (unfold summary_of_num in E; now destruct (numbers d)).
  pose proof (numbers_perm d) as P. rewrite En in P.
  apply Permutation_nil in P.
  destruct (rows d) as [|r rs]; [discriminate|].
  assert (int_of (field d "Student Name" r)
          ∈ remove_dups (map int_of (map (field d "Student Name") (r :: rs))))
    as Hin by (apply elem_of_remove_dups; now left).
  rewrite P in Hin. inv Hin.
Qed.

(** The analysis of a frame whose summary is not empty and has distinct
    labels succeeds. *)
Lemma analysis_of_summary (d : DataFrame) (st : App) (s : Series) :
  issubset required_columns (columns d) = true ->
  attendance_summary d = Ok s ->
  s <> [] -> NoDup (map fst s) ->
  exists m pm l pl,
    first_max s m pm /\ first_min s l pl
    /\ analyze_attendance d st
       = (Ok tt, {| df := df st;
                    events := events st ++ analysis_events s m pm l pl |}).
Proof.
  intros Hreq Hs Hne N.
  destruct (idxmax_first _ Hne) as (m & pm & Hm & Fm).
  destruct (idxmin_first _ Hne) as (l & pl & Hl & Fl).
  exists m, pm, l, pl. split; [exact Fm|]. split; [exact Fl|].
  destruct Fm as (a1 & a2 & Ea & _). destruct Fl as (b1 & b2 & Eb & _).
  apply analyze_attendance_run; auto.
  - eapply loc_NoDup; eauto.
  - eapply loc_NoDup; eauto.
Qed.

Lemma StronglySorted_map {A B} (R : relation A) (R' : relation B) (f : A -> B)
    (l : list A) :
  (forall x y, R x y -> R' (f x) (f y)) ->
  StronglySorted R l -> StronglySorted R' (map f l).
Proof.
  intros HR. induction 1 as [|a l S IH F]; simpl; constructor; [exact IH|].
  rewrite Forall_forall in F. apply Forall_forall. intros b Hb.
  apply list_elem_of_In, in_map_iff in Hb as (x & <- & Hx).
  apply HR, F. now apply list_elem_of_In.
Qed.

Lemma tie_after_sorted (R : relation string) (s l1 l2 : Series) (m k : string)
    (pm p : Q) :
  StronglySorted R (map fst s) ->
  s = l1 ++ (m, pm) :: l2 ->
  In (k, p) s -> ~ In (k, p) l1 -> k = m \/ R m k.
Proof.
  intros S -> Hin Hl1. rewrite map_app in S. simpl in S.
  apply in_app_or in Hin as [H|[H|H]]; [tauto | left; congruence | right].
  apply StronglySorted_app_1_r in S. apply StronglySorted_inv in S as [_ F].
  rewrite Forall_forall in F. apply F, list_elem_of_In.
  now apply (in_map fst) in H.
Qed.

Lemma name_lt_named (d : DataFrame) (a b : string) :
  named d = true -> name_lt d a b <-> str_lt a b.
Proof. intros H. unfold name_lt. now rewrite (numbered_not_named d H). Qed.

Lemma name_lt_numbered (d : DataFrame) (x y : Z) :
  numbered d = true -> name_lt d (pretty x) (pretty y) <-> (x < y)%Z.
Proof.
  intros H. unfold name_lt. rewrite H. split.
  - intros (x' & y' & Ex & Ey & L).
    apply (inj pretty) in Ex, Ey. now subst.
  - intros L. eauto.
Qed.

Section ReorderedNumbers.

Variables d d' : DataFrame.
Hypothesis same_columns : columns d' = columns d.
Hypothesis same_rows : rows d' ≡ₚ rows d.

Lemma records_of_num_reordered (n : Z) :
  records_of_num d' n ≡ₚ records_of_num d n.
Proof.
  unfold records_of_num.
  rewrite (filter_ext_field _
             (fun r => Z.eqb n (int_of (field d "Student Name" r))))
    by (intros r; now rewrite (field_columns d d')).
  now apply filter_Permutation.
Qed.

Lemma rate_num_reordered (n : Z) : rate_num d' n = rate_num d n.
Proof.
  unfold rate_num. rewrite !present_rate_counts.
  rewrite (filter_ext_field _
             (fun r => cell_eqb (field d "Status" r) "Present")
             (records_of_num d' n))
    by (intros r; now rewrite (field_columns d d')).
  pose proof (records_of_num_reordered n) as P.
  rewrite (Permutation_length P).
  now rewrite (Permutation_length
                 (filter_Permutation
                    (fun r => cell_eqb (field d "Status" r) "Present") _ _ P)).
Qed.

Lemma numbers_reordered : numbers d' = numbers d.
Proof.
  apply sort_same. intros k. rewrite !list_elem_of_In, !map_map, !in_map_iff.
  split; intros (r & <- & Hr); exists r.
  - rewrite (field_columns d d') by done. split; [done|].
    apply list_elem_of_In. rewrite <- same_rows. now apply list_elem_of_In.
  - rewrite (field_columns d d') by done. split; [done|].
    apply list_elem_of_In. rewrite same_rows. now apply list_elem_of_In.
Qed.

Lemma numbered_reordered : numbered d = true -> numbered d' = true.
Proof.
  unfold numbered, getitem. rewrite same_columns.
  destruct (get_loc (columns d) "Student Name") as [i|]; simpl; [|done].
  destruct (rows d) as [|r rs] eqn:Er; [discriminate|].
  destruct (rows d') as [|r' rs'] eqn:Er'.
  { now apply Permutation_nil in same_rows. }
  cbn [map int_column]. rewrite !forallb_forall. intros H c Hc.
  change (cell_at i r' :: map (cell_at i) rs')
    with (map (cell_at i) (r' :: rs')) in Hc.
  apply in_map_iff in Hc as (x & <- & Hx).
  apply H. change (cell_at i r :: map (cell_at i) rs)
    with (map (cell_at i) (r :: rs)).
  apply in_map, list_elem_of_In. rewrite <- same_rows.
  now apply list_elem_of_In.
Qed.

Lemma analyze_attendance_reordered_num (st : App) :
  issubset required_columns (columns d) = true ->
  numbered d = true ->
  analyze_attendance d' st = analyze_attendance d st.
Proof.
  intros Hreq Hnum.
  unfold analyze_attendance. rewrite same_columns.
  rewrite (attendance_summary_numbered d Hreq Hnum).
  rewrite (attendance_summary_numbered d');
    [| now rewrite same_columns | now apply numbered_reordered].
  unfold summary_of_num. rewrite numbers_reordered.
  now rewrite (map_ext (fun n => (pretty n, rate_num d' n))
                 (fun n => (pretty n, rate_num d n)))
    by (intros n; now rewrite rate_num_reordered).
Qed.

End ReorderedNumbers.

(** The summary of a frame whose names are all strs or all integers: it is
    not empty, its labels are distinct and ascending in the order of the
    names, and it does not depend on the order of the rows. *)
Lemma ordered_summary (d : DataFrame) :
  issubset required_columns (columns d) = true ->
  rows d <> [] ->
  named d = true \/ numbered d = true ->
  exists s,
    attendance_summary d = Ok s
    /\ s <> [] /\ NoDup (map fst s)
    /\ StronglySorted (name_lt d) (map fst s)
    /\ (forall d' st, columns d' = columns d -> rows d' ≡ₚ rows d ->
                      analyze_attendance d' st = analyze_attendance d st).
Proof.
  intros Hreq Hrows [Hnamed | Hnum].
  - exists (summary_of d). split; [now apply attendance_summary_named|].
    split; [|split; [|split]].
    + intros E. apply (students_nonempty d Hnamed Hrows).
      rewrite <- summary_labels, E. reflexivity.
    + rewrite summary_labels. apply group_labels_NoDup.
    + rewrite summary_labels. rewrite <- (map_id (students d)).
      apply (StronglySorted_map str_lt); [|apply students_ascending].
      intros x y. now apply name_lt_named.
    + intros d' st Hc Hr. now apply analyze_attendance_reordered.
  - exists (summary_of_num d).
    split; [now apply attendance_summary_numbered|].
    split; [now apply summary_num_nonempty|].
    split; [apply summary_num_NoDup|]. split.
    + rewrite summary_num_labels.
      apply (StronglySorted_map Z.lt); [|apply numbers_ascending].
      intros x y. now apply name_lt_numbered.
    + intros d' st Hc Hr. now apply analyze_attendance_reordered_num.
Qed.

(** With integer names the summary is in numeric order: the tie between 2
    and 10 at the maximum goes to 2, although "10" precedes "2" (and "3")
    in lexicographic order. *)
Lemma C9_counterexample :
  numbered numeric_tied = true
  /\ analyze_attendance numeric_tied fresh
     = (Ok tt,
        {| df := None;
           events :=
             analysis_events [("2", 100 # 1); ("3", 0 # 1); ("10", 100 # 1)]
                             "2" (100 # 1) "3" (0 # 1) |})
  /\ String.ltb "10" "2" = true
  /\ String.ltb "10" "3" = true.
Proof. repeat split. Qed.

(** C9 (amended): for a non-empty frame with the required columns whose names
    are all strs or all integers, the analysis succeeds; the most (resp.
    least) regular student shown carries the maximum (resp. minimum)
    percentage of the summary; the summary lists the students in strictly
    ascending order of name, lexicographic for strs and numeric for
    integers; hence every student tied with the most (resp. least) regular
    one comes later in that order; and the analysis of the same records in
    any other order of appearance gives the same result. *)
Theorem C9_ties_go_to_smallest_name (d : DataFrame) (st : App) :
  issubset required_columns (columns d) = true ->
  rows d <> [] ->
  named d = true \/ numbered d = true ->
  exists s most most_pct least least_pct overall,
    attendance_summary d = Ok s
    /\ analyze_attendance d st
       = (Ok tt,
          {| df := df st;
             events := events st ++
               [ savefig "reports/attendance_summary.png" s;
                 showinfo "Attendance Summary" (SummaryLines s);
                 showinfo "Attendance Insights"
                   (Insights most most_pct least least_pct overall) ] |})
    /\ In (most, most_pct) s
    /\ (forall k p, In (k, p) s -> (p <= most_pct)%Q)
    /\ In (least, least_pct) s
    /\ (forall k p, In (k, p) s -> (least_pct <= p)%Q)
    /\ StronglySorted (name_lt d) (map fst s)
    /\ (forall k p, In (k, p) s -> (p == most_pct)%Q ->
                    k = most \/ name_lt d most k)
    /\ (forall k p, In (k, p) s -> (p == least_pct)%Q ->
                    k = least \/ name_lt d least k)
    /\ (named d = true -> forall a b, name_lt d a b <-> str_lt a b)
    /\ (numbered d = true ->
        forall x y : Z, name_lt d (pretty x) (pretty y) <-> (x < y)%Z)
    /\ (forall d', columns d' = columns d -> rows d' ≡ₚ rows d ->
                   analyze_attendance d' st = analyze_attendance d st).
Proof.
  intros Hreq Hrows Hnames.
  destruct (ordered_summary d Hreq Hrows Hnames)
    as (s & Hs & Hne & N & S & Hperm).
  destruct (analysis_of_summary d st s Hreq Hs Hne N)
    as (m & pm & l & pl & Fm & Fl & Hrun).
  exists s, m, pm, l, pl, (mean (map snd s)).
  destruct (first_max_bound _ _ _ Fm) as [Im Bm].
  destruct (first_min_bound _ _ _ Fl) as [Il Bl].
  split; [exact Hs|]. split; [exact Hrun|].
  split; [exact Im|]. split; [exact Bm|].
  split; [exact Il|]. split; [exact Bl|].
  split; [exact S|]. split; [|split; [|split; [|split]]].
  - destruct Fm as (l1 & l2 & E & F1 & _). intros k p Hin Hp.
    eapply tie_after_sorted; eauto. intros H1. rewrite Forall_forall in F1.
    apply list_elem_of_In, F1 in H1. simpl in H1. lra.
  - destruct Fl as (l1 & l2 & E & F1 & _). intros k p Hin Hp.
    eapply tie_after_sorted; eauto. intros H1. rewrite Forall_forall in F1.
    apply list_elem_of_In, F1 in H1. simpl in H1. lra.
  - intros Hn a b. now apply name_lt_named.
  - intros Hn x y. now apply name_lt_numbered.
  - intros d' Hc Hr. now apply Hperm.
Qed.

Lemma C9_witness :
  exists s most most_pct least least_pct overall,
    attendance_summary tied = Ok s
    /\ analyze_attendance tied fresh
       = (Ok tt,
          {| df := df fresh;
             events := events fresh ++
               [ savefig "reports/attendance_summary.png" s;
                 showinfo "Attendance Summary" (SummaryLines s);
                 showinfo "Attendance Insights"
                   (Insights most most_pct least least_pct overall) ] |})
    /\ In (most, most_pct) s
    /\ (forall k p, In (k, p) s -> (p <= most_pct)%Q)
    /\ In (least, least_pct) s
    /\ (forall k p, In (k, p) s -> (least_pct <= p)%Q)
    /\ StronglySorted (name_lt tied) (map fst s)
    /\ (forall k p, In (k, p) s -> (p == most_pct)%Q ->
                    k = most \/ name_lt tied most k)
    /\ (forall k p, In (k, p) s -> (p == least_pct)%Q ->
                    k = least \/ name_lt tied least k)
    /\ (named tied = true -> forall a b, name_lt tied a b <-> str_lt a b)
    /\ (numbered tied = true ->
        forall x y : Z, name_lt tied (pretty x) (pretty y) <-> (x < y)%Z)
    /\ (forall d', columns d' = columns tied -> rows d' ≡ₚ rows tied ->
                   analyze_attendance d' fresh = analyze_attendance tied fresh).
Proof.
  apply (C9_ties_go_to_smallest_name tied fresh);
    [reflexivity | discriminate | left; reflexivity].
Defined.

(** ** The date filter on a frame *)

Lemma mapR_Forall2 {A B} (f : A -> result B) (l : list A) (l' : list B) :
  mapR f l = Ok l' <-> Forall2 (fun x y => f x = Ok y) l l'.
Proof.
  revert l'. induction l as [|x l IH]; intros l'; simpl.
  - split; [intros [= <-]; constructor | now inversion 1].
  - split.
    + destruct (f x) as [y|] eqn:Ex; simpl; [|discriminate].
      destruct (mapR f l) as [ys|] eqn:El; simpl; [|discriminate].
      intros [= <-]. constructor; [exact Ex | now apply IH].
    + inversion 1 as [|? y ? ys Ex Hys]; subst. rewrite Ex. simpl.
      apply IH in Hys. now rewrite Hys.
Qed.

Lemma mapR_total {A B} (f : A -> result B) (g : A -> B) (l : list A) :
  Forall (fun x => f x = Ok (g x)) l -> mapR f l = Ok (map g l).
Proof.
  induction 1 as [|x l Hx _ IH]; simpl; [reflexivity|].
  now rewrite Hx, IH.
Qed.

Lemma to_datetime_cell_datetime (parse : string -> option Z) (c v : Cell) :
  to_datetime_cell parse c = Ok v -> is_datetime v = true.
Proof.
  destruct c; simpl; [destruct (parse s)|..]; intros [= <-]; reflexivity.
Qed.

Lemma to_datetime_cell_fixed (parse : string -> option Z) (c : Cell) :
  is_datetime c = true -> to_datetime_cell parse c = Ok c.
Proof. destruct c; simpl; (discriminate || reflexivity). Qed.

Lemma cell_at_written (i : nat) (v : Cell) (r : Row) :
  cell_at i (<[i := v]> (pad_to i r)) = v.
Proof.
  unfold cell_at. rewrite list_lookup_insert_eq; [reflexivity|].
  unfold pad_to. rewrite length_app, length_replicate. lia.
Qed.

Lemma cell_at_pad (i j : nat) (r : Row) : cell_at j (pad_to i r) = cell_at j r.
Proof.
  unfold cell_at, pad_to.
  destruct (decide (j < length r)%nat) as [L|G].
  - now rewrite lookup_app_l.
  - rewrite lookup_app_r by lia. rewrite (lookup_ge_None_2 r j) by lia.
    destruct (replicate _ NaN !! _) as [c|] eqn:E; [|reflexivity].
    now apply lookup_replicate in E as [-> _].
Qed.

Lemma cell_at_other (i j : nat) (v : Cell) (r : Row) :
  i <> j -> cell_at j (<[i := v]> (pad_to i r)) = cell_at j r.
Proof.
  intros N. rewrite <- (cell_at_pad i j r). unfold cell_at.
  now rewrite list_lookup_insert_ne.
Qed.

Lemma rewrite_in_place (i : nat) (r : Row) :
  (i < length r)%nat -> <[i := cell_at i r]> (pad_to i r) = r.
Proof.
  intros L. unfold pad_to. replace (S i - length r)%nat with O by lia.
  simpl. rewrite app_nil_r. apply list_insert_id. unfold cell_at.
  destruct (lookup_lt_is_Some_2 r i L) as [c ->]. reflexivity.
Qed.

Lemma map_zip_with_written (i : nat) (rs : list Row) (vals : list Cell) :
  length vals = length rs ->
  map (cell_at i) (zip_with (fun r v => <[i := v]> (pad_to i r)) rs vals) = vals.
Proof.
  revert vals. induction rs as [|r rs IH]; intros [|v vals]; simpl;
    try discriminate; [reflexivity|].
  intros [= L]. now rewrite cell_at_written, IH.
Qed.

Lemma zip_with_andb_map {A} (f g : A -> bool) (l : list A) :
  zip_with andb (map f l) (map g l) = map (fun x => f x && g x) l.
Proof. induction l as [|x l IH]; simpl; [reflexivity|]. now rewrite IH. Qed.

Lemma cmp_scalar_datetime (test : Z -> Z -> bool) (col : list Cell) (t : Z) :
  forallb is_datetime col = true ->
  cmp_scalar test col t = Ok (map (test_cell test t) col).
Proof.
  intros F. unfold cmp_scalar. apply mapR_total.
  rewrite forallb_forall in F. apply Forall_forall. intros c Hc.
  apply list_elem_of_In, F in Hc. now destruct c.
Qed.

Lemma to_datetime_datetime (parse : string -> option Z) (col dates : list Cell) :
  to_datetime parse col = Ok dates ->
  length dates = length col /\ forallb is_datetime dates = true.
Proof.
  unfold to_datetime. rewrite mapR_Forall2. intros F. split.
  - symmetry. eapply Forall2_length, F.
  - induction F as [|c v col dates Hc _ IH]; simpl; [reflexivity|].
    now rewrite (to_datetime_cell_datetime _ _ _ Hc), IH.
Qed.

Lemma filter_by_range_ok (parse : string -> option Z) (d : DataFrame)
    (start_date end_date : Z) (i : nat) (dates : list Cell) :
  get_loc (columns d) "Date" = Ok i ->
  to_datetime parse (map (cell_at i) (rows d)) = Ok dates ->
  filter_by_range parse d start_date end_date
  = Ok (with_dates d i dates,
        in_range (with_dates d i dates) start_date end_date).
Proof.
  intros Hi Hd. destruct (to_datetime_datetime _ _ _ Hd) as [L F].
  rewrite length_map in L.
  unfold filter_by_range, getitem, setitem. rewrite Hi. simpl.
  rewrite Hd. simpl. rewrite Hi. simpl.
  rewrite (map_zip_with_written i _ _ L).
  unfold ge_scalar, le_scalar. rewrite !(cmp_scalar_datetime _ _ _ F). simpl.
  f_equal. f_equal. unfold getitem_mask, in_range, mask_and. simpl. f_equal.
  rewrite zip_with_andb_map.
  pose proof (map_zip_with_written i (rows d) dates L) as E.
  remember (zip_with _ (rows d) dates) as rows' eqn:Hrows'.
  transitivity
    (select rows'
       (map (fun x => test_cell Z.geb start_date x && test_cell Z.leb end_date x)
            (map (cell_at i) rows'))); [now rewrite E|].
  rewrite map_map, select_filter. apply filter_ext_field.
  intros r. unfold dated_within, field. simpl. rewrite Hi.
  destruct (cell_at i r); simpl; try reflexivity.
  now rewrite Z.geb_leb.
Qed.

Lemma get_loc_label (cols : list string) (c : string) (i : nat) :
  get_loc cols c = Ok i -> cols !! i = Some c.
Proof.
  revert i. induction cols as [|c' cols IH]; intros i; simpl; [discriminate|].
  destruct (String.eqb_spec c' c) as [-> | _].
  - now intros [= <-].
  - destruct (get_loc cols c) as [j|]; simpl; [|discriminate].
    intros [= <-]. simpl. auto.
Qed.

Lemma get_loc_inj (cols : list string) (c c' : string) (i : nat) :
  get_loc cols c = Ok i -> get_loc cols c' = Ok i -> c = c'.
Proof.
  intros H H'. apply get_loc_label in H, H'. congruence.
Qed.

Lemma with_dates_parsed (parse : string -> option Z) (d : DataFrame) (i : nat)
    (dates : list Cell) :
  get_loc (columns d) "Date" = Ok i ->
  to_datetime parse (map (cell_at i) (rows d)) = Ok dates ->
  date_parsed parse d (with_dates d i dates).
Proof.
  intros Hi Hd. destruct (to_datetime_datetime _ _ _ Hd) as [L _].
  rewrite length_map in L.
  split; [reflexivity|]. split.
  - unfold with_dates. simpl. rewrite length_zip_with. lia.
  - intros n r r' Hr Hr'. unfold with_dates in Hr'. simpl in Hr'.
    apply lookup_zip_with_Some in Hr' as (r0 & v & -> & Hr0 & Hv).
    assert (r0 = r) as -> by congruence. split.
    + intros c Hc. unfold field. simpl.
      destruct (get_loc (columns d) c) as [j|] eqn:Hj; [|reflexivity].
      apply cell_at_other. intros <-. apply Hc.
      exact (get_loc_inj _ _ _ _ Hj Hi).
    + unfold field. simpl. rewrite Hi, cell_at_written.
      unfold to_datetime in Hd. apply mapR_Forall2 in Hd.
      eapply (Forall2_lookup_lr _ _ _ n) in Hd; [exact Hd | | exact Hv].
      change (map (cell_at i) (rows d)) with (cell_at i <$> rows d).
      now rewrite list_lookup_fmap, Hr.
Qed.

Lemma filter_by_range_inv (parse : string -> option Z) (d : DataFrame)
    (start_date end_date : Z) (x : DataFrame * DataFrame) :
  filter_by_range parse d start_date end_date = Ok x ->
  exists i dates,
    get_loc (columns d) "Date" = Ok i
    /\ to_datetime parse (map (cell_at i) (rows d)) = Ok dates
    /\ x = (with_dates d i dates,
            in_range (with_dates d i dates) start_date end_date).
Proof.
  intros H.
  destruct (get_loc (columns d) "Date") as [i|] eqn:Hi;
    [|unfold filter_by_range, getitem in H; rewrite Hi in H; discriminate].
  destruct (to_datetime parse (map (cell_at i) (rows d))) as [dates|] eqn:Hd;
    [|unfold filter_by_range, getitem in H; rewrite Hi in H; simpl in H;
      rewrite Hd in H; discriminate].
  exists i, dates. rewrite (filter_by_range_ok _ _ _ _ _ _ Hi Hd) in H.
  split; [reflexivity|]. split; [exact Hd|]. congruence.
Qed.

Lemma sublist_List_filter {A} (f : A -> bool) (l : list A) :
  sublist (List.filter f l) l.
Proof.
  induction l as [|x l IH]; simpl; [constructor|].
  destruct (f x); now constructor.
Qed.

Lemma filter_all {A} (f : A -> bool) (l : list A) :
  Forall (fun x => f x = true) l -> List.filter f l = l.
Proof.
  induction 1 as [|x l Hx _ IH]; simpl; [reflexivity|]. now rewrite Hx, IH.
Qed.

Lemma filter_none {A} (f : A -> bool) (l : list A) :
  (forall x, f x = false) -> List.filter f l = [].
Proof.
  intros N. induction l as [|x l IH]; simpl; [reflexivity|]. now rewrite N.
Qed.

Lemma dated_within_day (d : DataFrame) (t : Z) (r : Row) :
  dated_within d t t r = dated_on d t r.
Proof.
  unfold dated_within, dated_on. destruct (field d "Date" r); try reflexivity.
  destruct (Z.leb_spec t t0), (Z.leb_spec t0 t), (Z.eqb_spec t0 t);
    simpl; try reflexivity; lia.
Qed.

(** C3: on a frame whose [Date] column parses, lines 108-109 return the frame
    with parsed dates and, from it, exactly the records whose date lies in
    the inclusive interval, in their original order; for equal bounds these
    are exactly the records dated that day. *)
Theorem C3_filter_by_range (parse : string -> option Z) (d : DataFrame)
    (start_date end_date : Z) (col dates : list Cell) :
  getitem d "Date" = Ok col ->
  to_datetime parse col = Ok dates ->
  exists d' f,
    filter_by_range parse d start_date end_date = Ok (d', f)
    /\ date_parsed parse d d'
    /\ columns f = columns d
    /\ rows f = List.filter (dated_within d' start_date end_date) (rows d')
    /\ sublist (rows f) (rows d')
    /\ (forall r, r ∈ rows f <->
                  r ∈ rows d' /\ dated_within d' start_date end_date r = true)
    /\ (start_date = end_date ->
        rows f = List.filter (dated_on d' start_date) (rows d')).
Proof.
  unfold getitem. destruct (get_loc (columns d) "Date") as [i|] eqn:Hi;
    simpl; [|discriminate].
  intros [= <-] Hd.
  exists (with_dates d i dates), (in_range (with_dates d i dates) start_date end_date).
  split; [now apply filter_by_range_ok|].
  split; [now apply (with_dates_parsed parse)|].
  split; [reflexivity|]. split; [reflexivity|].
  split; [apply sublist_List_filter|]. split.
  - intros r. simpl. rewrite !list_elem_of_In. apply filter_In.
  - intros <-. simpl. apply filter_ext_field. intros r. apply dated_within_day.
Qed.

Lemma C3_witness :
  exists d' f,
    filter_by_range iso_date example_records jan1 jan1 = Ok (d', f)
    /\ date_parsed iso_date example_records d'
    /\ columns f = columns example_records
    /\ rows f = List.filter (dated_within d' jan1 jan1) (rows d')
    /\ sublist (rows f) (rows d')
    /\ (forall r, r ∈ rows f <->
                  r ∈ rows d' /\ dated_within d' jan1 jan1 r = true)
    /\ (jan1 = jan1 -> rows f = List.filter (dated_on d' jan1) (rows d')).
Proof.
  eapply (C3_filter_by_range iso_date example_records jan1 jan1);
    reflexivity.
Defined.

(** The worked example: the records of 2024-01-01, then their summary. *)
Example single_day :
  iso_date "2024-01-01" = Some jan1
  /\ (exists d',
        filter_by_range iso_date example_records jan1 jan1
        = Ok (d', {| columns := header;
                     rows := [ [Text "Alice"; Stamp jan1; Text "Present"];
                               [Text "Bob"; Stamp jan1; Text "Present"] ] |}))
  /\ attendance_summary
       {| columns := header;
          rows := [ [Text "Alice"; Stamp jan1; Text "Present"];
                    [Text "Bob"; Stamp jan1; Text "Present"] ] |}
     = Ok [("Alice", 100 # 1); ("Bob", 100 # 1)].
Proof. split; [reflexivity|]. split; [eexists|]; reflexivity. Qed.

Lemma in_range_rows_long (d : DataFrame) (start_date end_date : Z) (i : nat) :
  get_loc (columns d) "Date" = Ok i ->
  Forall (fun r => (i < length r)%nat /\ is_datetime (cell_at i r) = true
                   /\ dated_within d start_date end_date r = true)
         (rows (in_range d start_date end_date)).
Proof.
  intros Hi. apply Forall_forall. intros r Hr.
  apply list_elem_of_In, filter_In in Hr as [_ Hr]. split; [|split; [|exact Hr]].
  - unfold dated_within, field in Hr. rewrite Hi in Hr. unfold cell_at in Hr.
    destruct (r !! i) eqn:E; [|discriminate]. now apply lookup_lt_Some in E.
  - unfold dated_within, field in Hr. rewrite Hi in Hr.
    now destruct (cell_at i r).
Qed.

Lemma zip_with_in_place (i : nat) (rs : list Row) :
  Forall (fun r => (i < length r)%nat) rs ->
  zip_with (fun r v => <[i := v]> (pad_to i r)) rs (map (cell_at i) rs) = rs.
Proof.
  induction 1 as [|r rs Hr _ IH]; simpl; [reflexivity|].
  now rewrite rewrite_in_place, IH.
Qed.

(** A frame whose rows all lie in the interval is a fixed point of the
    filter. *)
Lemma filter_by_range_fixed (parse : string -> option Z) (g : DataFrame)
    (start_date end_date : Z) (i : nat) :
  get_loc (columns g) "Date" = Ok i ->
  Forall (fun r => (i < length r)%nat /\ is_datetime (cell_at i r) = true
                   /\ dated_within g start_date end_date r = true) (rows g) ->
  filter_by_range parse g start_date end_date = Ok (g, g).
Proof.
  intros Hi F.
  assert (to_datetime parse (map (cell_at i) (rows g))
          = Ok (map (cell_at i) (rows g))) as Hd.
  { unfold to_datetime. rewrite <- (map_id (map (cell_at i) (rows g))) at 2.
    apply mapR_total. apply Forall_forall. intros c Hc.
    apply list_elem_of_In, in_map_iff in Hc as (r & <- & Hr).
    rewrite Forall_forall in F. apply list_elem_of_In, F in Hr as (_ & D & _).
    now apply to_datetime_cell_fixed. }
  rewrite (filter_by_range_ok _ _ _ _ _ _ Hi Hd).
  assert (with_dates g i (map (cell_at i) (rows g)) = g) as ->.
  { unfold with_dates. rewrite zip_with_in_place; [now destruct g|].
    eapply Forall_impl; [exact F|]. now intros r (L & _). }
  unfold in_range. rewrite filter_all; [now destruct g|].
  eapply Forall_impl; [exact F|]. now intros r (_ & _ & W).
Qed.

(** C8: filtering the result of the filter again with the same bounds returns
    the same records. *)
Theorem C8_filter_idempotent (parse : string -> option Z) (d d' f : DataFrame)
    (start_date end_date : Z) :
  filter_by_range parse d start_date end_date = Ok (d', f) ->
  filter_by_range parse f start_date end_date = Ok (f, f).
Proof.
  intros H. apply filter_by_range_inv in H as (i & dates & Hi & Hd & [= -> ->]).
  apply (filter_by_range_fixed parse _ _ _ i); [exact Hi|].
  apply (in_range_rows_long (with_dates d i dates) start_date end_date i Hi).
Qed.

Lemma C8_witness :
  filter_by_range iso_date example_records jan1 jan1
  = Ok (with_dates example_records 1 [Stamp jan1; Stamp jan2; Stamp jan1; Stamp jan2],
        in_range (with_dates example_records 1
                    [Stamp jan1; Stamp jan2; Stamp jan1; Stamp jan2]) jan1 jan1)
  /\ filter_by_range iso_date
       (in_range (with_dates example_records 1
                    [Stamp jan1; Stamp jan2; Stamp jan1; Stamp jan2]) jan1 jan1)
       jan1 jan1
     = Ok (in_range (with_dates example_records 1
                       [Stamp jan1; Stamp jan2; Stamp jan1; Stamp jan2]) jan1 jan1,
           in_range (with_dates example_records 1
                       [Stamp jan1; Stamp jan2; Stamp jan1; Stamp jan2]) jan1 jan1).
Proof.
  split; [reflexivity|].
  apply (C8_filter_idempotent iso_date example_records
           (with_dates example_records 1
              [Stamp jan1; Stamp jan2; Stamp jan1; Stamp jan2])).
  reflexivity.
Defined.

(** ** Running the handlers *)

Lemma try_except_bind {A B} (m : M A) (k : A -> M B) (h : exn -> M B) (st : App) :
  try_except (bind m k) h st
  = match m st with
    | (Ok a, st') => try_except (k a) h st'
    | (Raise e, st') => h e st'
    end.
Proof. unfold try_except, bind. now destruct (m st) as [[a|e] st']. Qed.

Lemma try_except_returns (body : M unit) (h : exn -> M unit) (st : App) :
  (forall e st', fst (h e st') = Ok tt) ->
  fst (try_except body h st) = Ok tt.
Proof.
  intros Hh. unfold try_except. destruct (body st) as [[[]|e] st']; auto.
Qed.

Lemma try_except_ok {A} (m : M A) (h : exn -> M A) (st : App) (a : A) :
  fst (m st) = Ok a -> try_except m h st = m st.
Proof.
  unfold try_except. destruct (m st) as [[a'|e] st']; simpl; congruence.
Qed.

Lemma analyze_attendance_returns (d : DataFrame) (st : App) :
  fst (analyze_attendance d st) = Ok tt.
Proof. apply try_except_returns. reflexivity. Qed.

Lemma keeps_ret {A} (a : A) : keeps_df (ret a).
Proof. now intros st. Qed.

Lemma keeps_raise {A} (e : exn) : keeps_df (@raise A e).
Proof. now intros st. Qed.

Lemma keeps_lift {A} (r : result A) : keeps_df (lift r).
Proof. now intros st. Qed.

Lemma keeps_emit (e : Event) : keeps_df (emit e).
Proof. now intros st. Qed.

Lemma keeps_get_df : keeps_df get_df.
Proof. intros st. unfold get_df. now destruct (df st) eqn:E. Qed.

Lemma keeps_bind {A B} (m : M A) (k : A -> M B) :
  keeps_df m -> (forall a, keeps_df (k a)) -> keeps_df (bind m k).
Proof.
  intros Hm Hk st. unfold bind. specialize (Hm st).
  destruct (m st) as [[a|e] st']; simpl in *; [|exact Hm].
  rewrite <- Hm. apply Hk.
Qed.

Lemma keeps_try_except {A} (m : M A) (h : exn -> M A) :
  keeps_df m -> (forall e, keeps_df (h e)) -> keeps_df (try_except m h).
Proof.
  intros Hm Hh st. unfold try_except. specialize (Hm st).
  destruct (m st) as [[a|e] st']; simpl in *; [exact Hm|].
  rewrite <- Hm. apply Hh.
Qed.

Lemma keeps_if {A} (b : bool) (m1 m2 : M A) :
  keeps_df m1 -> keeps_df m2 -> keeps_df (if b then m1 else m2).
Proof. now destruct b. Qed.

Create HintDb keeps.
#[local] Hint Resolve keeps_ret keeps_raise keeps_lift keeps_emit keeps_get_df
  keeps_if : keeps.
#[local] Hint Extern 2 (keeps_df (bind _ _)) =>
  apply keeps_bind; [|intros ?] : keeps.
#[local] Hint Extern 2 (keeps_df (try_except _ _)) =>
  apply keeps_try_except; [|intros ?] : keeps.

Lemma keeps_analyze_attendance (d : DataFrame) : keeps_df (analyze_attendance d).
Proof. unfold analyze_attendance. auto 20 with keeps. Qed.

#[local] Hint Resolve keeps_analyze_attendance : keeps.

Lemma getitem_with_dates (d : DataFrame) (i : nat) (dates : list Cell) :
  get_loc (columns d) "Date" = Ok i ->
  length dates = length (rows d) ->
  getitem (with_dates d i dates) "Date" = Ok dates.
Proof.
  intros Hi L. unfold getitem, with_dates. simpl. rewrite Hi. simpl.
  now rewrite map_zip_with_written.
Qed.

Lemma mask_selects (d : DataFrame) (i : nat) (dates : list Cell)
    (start_date end_date : Z) :
  get_loc (columns d) "Date" = Ok i ->
  length dates = length (rows d) ->
  getitem_mask (with_dates d i dates)
    (mask_and (map (test_cell Z.geb start_date) dates)
              (map (test_cell Z.leb end_date) dates))
  = in_range (with_dates d i dates) start_date end_date.
Proof.
  intros Hi L. unfold getitem_mask, in_range, mask_and. f_equal.
  rewrite zip_with_andb_map. simpl.
  pose proof (map_zip_with_written i (rows d) dates L) as E.
  remember (zip_with _ (rows d) dates) as rows' eqn:Hrows'.
  transitivity
    (select rows'
       (map (fun x => test_cell Z.geb start_date x && test_cell Z.leb end_date x)
            (map (cell_at i) rows'))); [now rewrite E|].
  rewrite map_map, select_filter. apply filter_ext_field.
  intros r. unfold dated_within, field. simpl. rewrite Hi.
  destruct (cell_at i r); simpl; try reflexivity.
  now rewrite Z.geb_leb.
Qed.

Section HandlerRuns.

Variable strptime : string -> option Z.
Variable parse : string -> option Z.

(** With both entries filled and parsed and a dataset whose dates parse,
    the handler stores the parsed frame and hands the rows in range to the
    analysis, unless there are none. *)
Lemma analyze_with_date_filter_run (start_text end_text : string)
    (start_date end_date : Z) (st : App) (d d' f : DataFrame) :
  start_text <> "" -> end_text <> "" ->
  strptime start_text = Some start_date ->
  strptime end_text = Some end_date ->
  df st = Some d ->
  filter_by_range parse d start_date end_date = Ok (d', f) ->
  analyze_with_date_filter strptime parse start_text end_text st
  = (if empty f
     then emit (showinfo "No Data"
                  (Literal "No records found for the selected date range."))
     else analyze_attendance f)
      {| df := Some d'; events := events st |}.
Proof.
  intros Ha Hb Hs He Hdf Hf.
  apply filter_by_range_inv in Hf as (i & dates & Hi & Hd & [= -> ->]).
  destruct (to_datetime_datetime _ _ _ Hd) as [L F]. rewrite length_map in L.
  apply String.eqb_neq in Ha, Hb.
  unfold analyze_with_date_filter.
  rewrite try_except_bind. rewrite Ha, Hb. cbn [negb andb ret].
  rewrite try_except_bind. unfold lift at 1, strptime_ymd at 1. rewrite Hs.
  rewrite try_except_bind. unfold lift at 1, strptime_ymd at 1. rewrite He.
  rewrite try_except_bind. unfold get_df at 1. rewrite Hdf.
  rewrite try_except_bind. unfold lift at 1, getitem at 1. rewrite Hi.
  cbn [rbind].
  rewrite try_except_bind. unfold lift at 1. rewrite Hd.
  rewrite try_except_bind. unfold get_df at 1. rewrite Hdf.
  rewrite try_except_bind. unfold lift at 1, setitem at 1. rewrite Hi.
  cbn [rbind]. fold (with_dates d i dates).
  rewrite try_except_bind. unfold set_df at 1. cbn [events].
  rewrite try_except_bind. unfold get_df at 1. cbn [df].
  rewrite try_except_bind. unfold lift at 1.
  rewrite (getitem_with_dates d i dates Hi L).
  rewrite try_except_bind. unfold lift at 1, ge_scalar.
  rewrite (cmp_scalar_datetime _ _ _ F).
  rewrite try_except_bind. unfold get_df at 1. cbn [df].
  rewrite try_except_bind. unfold lift at 1.
  rewrite (getitem_with_dates d i dates Hi L).
  rewrite try_except_bind. unfold lift at 1, le_scalar.
  rewrite (cmp_scalar_datetime _ _ _ F).
  rewrite try_except_bind. unfold get_df at 1. cbn [df].
  cbv zeta. rewrite (mask_selects d i dates _ _ Hi L).
  apply (try_except_ok _ _ _ tt).
  destruct (empty _); [reflexivity | apply analyze_attendance_returns].
Qed.

End HandlerRuns.

(** ** Reversed bounds *)

Lemma dated_within_reversed (d : DataFrame) (start_date end_date : Z) (r : Row) :
  (end_date < start_date)%Z -> dated_within d start_date end_date r = false.
Proof.
  intros H. unfold dated_within. destruct (field d "Date" r); try reflexivity.
  destruct (Z.leb_spec start_date t), (Z.leb_spec t end_date);
    simpl; try reflexivity; lia.
Qed.

(** With a stored dataset that has no [Date] column, or one whose dates do
    not all convert, reversed bounds give the error dialog, not the "No
    records found" information. *)
Lemma C10_counterexample :
  iso_date "2024-01-02" = Some jan2 /\ iso_date "2024-01-01" = Some jan1
  /\ (jan1 < jan2)%Z
  /\ analyze_with_date_filter iso_date iso_date "2024-01-02" "2024-01-01"
       {| df := Some no_date; events := [] |}
     = (Ok tt, {| df := Some no_date;
                  events := [filter_failed (KeyError "Date")] |})
  /\ analyze_with_date_filter iso_date iso_date "2024-01-02" "2024-01-01"
       {| df := Some bad_date; events := [] |}
     = (Ok tt, {| df := Some bad_date;
                  events := [filter_failed unknown_format] |})
  /\ filter_failed (KeyError "Date") <> no_data
  /\ filter_failed unknown_format <> no_data.
Proof. repeat split; discriminate. Qed.

(** C10 (amended): with both entries filled and parsed, the start strictly
    after the end, and a loaded dataset whose [Date] column exists and
    converts, the filter selects no record and the handler only shows the
    "No records found" information: none of the events of the analysis is
    produced.  The stored [Date] column is converted on the way. *)
Theorem C10_start_after_end (strptime parse : string -> option Z)
    (start_text end_text : string) (start_date end_date : Z) (st : App)
    (d : DataFrame) (col dates : list Cell) :
  start_text <> "" -> end_text <> "" ->
  strptime start_text = Some start_date ->
  strptime end_text = Some end_date ->
  (end_date < start_date)%Z ->
  df st = Some d ->
  getitem d "Date" = Ok col ->
  to_datetime parse col = Ok dates ->
  exists d' f,
    filter_by_range parse d start_date end_date = Ok (d', f)
    /\ rows f = []
    /\ date_parsed parse d d'
    /\ analyze_with_date_filter strptime parse start_text end_text st
       = (Ok tt, {| df := Some d'; events := events st ++ [no_data] |}).
Proof.
  intros Ha Hb Hs He Hlt Hdf Hcol Hd.
  unfold getitem in Hcol.
  destruct (get_loc (columns d) "Date") as [i|] eqn:Hi; [|discriminate].
  simpl in Hcol. injection Hcol as <-.
  pose proof (filter_by_range_ok parse d start_date end_date i dates Hi Hd) as Hf.
  exists (with_dates d i dates),
         (in_range (with_dates d i dates) start_date end_date).
  assert (rows (in_range (with_dates d i dates) start_date end_date) = []) as E.
  { apply filter_none. intros r. now apply dated_within_reversed. }
  split; [exact Hf|]. split; [exact E|].
  split; [now apply (with_dates_parsed parse)|].
  rewrite (analyze_with_date_filter_run strptime parse _ _ _ _ _ _ _ _
             Ha Hb Hs He Hdf Hf).
  unfold empty. rewrite E. now destruct (columns _).
Qed.

Lemma C10_witness :
  exists d' f,
    filter_by_range iso_date example_records jan2 jan1 = Ok (d', f)
    /\ rows f = []
    /\ date_parsed iso_date example_records d'
    /\ analyze_with_date_filter iso_date iso_date "2024-01-02" "2024-01-01" loaded
       = (Ok tt, {| df := Some d'; events := events loaded ++ [no_data] |}).
Proof.
  eapply (C10_start_after_end iso_date iso_date "2024-01-02" "2024-01-01"
            jan2 jan1 loaded example_records);
    try reflexivity; discriminate.
Defined.

(** ** Empty datasets and missing columns *)

(** C5: the analysis of a frame with the required columns and no row fails:
    after the empty chart and the empty summary, [idxmax] raises on the empty
    summary and the error dialog reports it; no percentage and no insight is
    shown.  Loading a header-only CSV succeeds (the file becomes the dataset
    and "File Loaded" is shown) and the analysis that follows fails in this
    way. *)
Theorem C5_empty_dataset (cols : list string) (path : string) (st : App) :
  issubset required_columns cols = true ->
  path <> "" ->
  attendance_summary {| columns := cols; rows := [] |} = Ok []
  /\ analyze_attendance {| columns := cols; rows := [] |} st
     = (Ok tt,
        {| df := df st;
           events := events st ++
             [ savefig "reports/attendance_summary.png" [];
               showinfo "Attendance Summary" (SummaryLines []);
               analysis_failed empty_argmax ] |})
  /\ load_and_analyze path (Ok {| columns := cols; rows := [] |}) st
     = (Ok tt,
        {| df := Some {| columns := cols; rows := [] |};
           events := events st ++
             [ to_csv ("data/" ++ basename path) {| columns := cols; rows := [] |};
               showinfo "File Loaded" (FileLoaded (basename path));
               savefig "reports/attendance_summary.png" [];
               showinfo "Attendance Summary" (SummaryLines []);
               analysis_failed empty_argmax ] |}).
Proof.
  intros Hreq Hpath.
  destruct (required_present _ Hreq) as (i & j & k & Hi & Hj & Hk).
  assert (attendance_summary {| columns := cols; rows := [] |} = Ok []) as Hs.
  { unfold attendance_summary, getitem. simpl. now rewrite Hi, Hk. }
  assert (forall st0,
             analyze_attendance {| columns := cols; rows := [] |} st0
             = (Ok tt,
                {| df := df st0;
                   events := events st0 ++
                     [ savefig "reports/attendance_summary.png" [];
                       showinfo "Attendance Summary" (SummaryLines []);
                       analysis_failed empty_argmax ] |})) as Hrun.
  { intros st0.
    unfold analyze_attendance, try_except, bind, lift, emit, ret, raise.
    cbn [columns]. rewrite Hreq, Hs. simpl. now rewrite events_app3. }
  split; [exact Hs|]. split; [apply Hrun|].
  apply String.eqb_neq in Hpath.
  unfold load_and_analyze. rewrite Hpath.
  unfold try_except, bind at 1 2 3 4 5 6, lift, set_df, get_df, emit. simpl.
  rewrite Hrun. simpl. now rewrite <- !app_assoc.
Qed.

Lemma C5_witness :
  attendance_summary header_only = Ok []
  /\ analyze_attendance header_only fresh
     = (Ok tt,
        {| df := df fresh;
           events := events fresh ++
             [ savefig "reports/attendance_summary.png" [];
               showinfo "Attendance Summary" (SummaryLines []);
               analysis_failed empty_argmax ] |})
  /\ load_and_analyze "/home/teacher/empty.csv" (Ok header_only) fresh
     = (Ok tt,
        {| df := Some header_only;
           events := events fresh ++
             [ to_csv ("data/" ++ basename "/home/teacher/empty.csv") header_only;
               showinfo "File Loaded"
                 (FileLoaded (basename "/home/teacher/empty.csv"));
               savefig "reports/attendance_summary.png" [];
               showinfo "Attendance Summary" (SummaryLines []);
               analysis_failed empty_argmax ] |}).
Proof.
  apply (C5_empty_dataset header "/home/teacher/empty.csv" fresh);
    [reflexivity | discriminate].
Defined.

(** With [example_records] loaded, uploading a file without the [Status]
    column leaves that file as the dataset. *)
Lemma C6_counterexample :
  issubset required_columns (columns no_status) = false
  /\ df loaded = Some example_records
  /\ df (snd (load_and_analyze "/home/teacher/marks.csv" (Ok no_status) loaded))
     = Some no_status
  /\ Some no_status <> df loaded.
Proof. repeat split. discriminate. Qed.

(** C6 (amended): an upload that lacks a required column is reported by the
    analysis ("Failed to analyze attendance", with the ValueError of line 62)
    and the analysis is aborted before any summary; by then the upload has
    replaced the dataset, its copy has been written and "File Loaded" has
    been shown.  Only when reading the file itself fails is the previous
    dataset kept. *)
Theorem C6_missing_columns_on_load (path : string) (d : DataFrame) (e : exn)
    (st : App) :
  path <> "" ->
  issubset required_columns (columns d) = false ->
  load_and_analyze path (Ok d) st
  = (Ok tt,
     {| df := Some d;
        events := events st ++
          [ to_csv ("data/" ++ basename path) d;
            showinfo "File Loaded" (FileLoaded (basename path));
            analysis_failed missing_columns ] |})
  /\ load_and_analyze path (Raise e) st
     = (Ok tt, {| df := df st; events := events st ++ [load_failed e] |}).
Proof.
  intros Hpath Hreq. apply String.eqb_neq in Hpath.
  unfold load_and_analyze. rewrite Hpath. split.
  - unfold try_except at 1, bind at 1 2 3 4 5 6, lift, set_df, get_df, emit.
    simpl.
    unfold analyze_attendance, try_except, bind, emit, raise. rewrite Hreq.
    simpl. now rewrite <- !app_assoc.
  - reflexivity.
Qed.

Lemma C6_witness :
  load_and_analyze "/home/teacher/marks.csv" (Ok no_status) loaded
  = (Ok tt,
     {| df := Some no_status;
        events := events loaded ++
          [ to_csv ("data/" ++ basename "/home/teacher/marks.csv") no_status;
            showinfo "File Loaded" (FileLoaded (basename "/home/teacher/marks.csv"));
            analysis_failed missing_columns ] |})
  /\ load_and_analyze "/home/teacher/marks.csv"
       (Raise (OSError "No such file or directory")) loaded
     = (Ok tt,
        {| df := df loaded;
           events := events loaded
                     ++ [load_failed (OSError "No such file or directory")] |}).
Proof.
  apply (C6_missing_columns_on_load "/home/teacher/marks.csv" no_status
           (OSError "No such file or directory") loaded);
    [discriminate | reflexivity].
Defined.

(** ** Effects on the stored dataset *)

(** After a date-filtered analysis of [example_records] the stored [Date]
    cells are timestamps, no longer the text of the file. *)
Lemma C7_counterexample :
  df loaded = Some example_records
  /\ df (snd (analyze_with_date_filter iso_date iso_date
                "2024-01-01" "2024-01-02" loaded))
     = Some {| columns := header;
               rows := [ [Text "Alice"; Stamp jan1; Text "Present"];
                         [Text "Alice"; Stamp jan2; Text "Absent"];
                         [Text "Bob"; Stamp jan1; Text "Present"];
                         [Text "Bob"; Stamp jan2; Text "Present"] ] |}
  /\ df (snd (analyze_with_date_filter iso_date iso_date
                "2024-01-01" "2024-01-02" loaded))
     <> df loaded.
Proof. repeat split. discriminate. Qed.

Section StoreEffects.

Variable strptime : string -> option Z.
Variable parse : string -> option Z.

Lemma date_filter_store (start_text end_text : string) (st : App) :
  df (snd (analyze_with_date_filter strptime parse start_text end_text st))
  = df st
  \/ exists d d',
      df st = Some d
      /\ df (snd (analyze_with_date_filter strptime parse
                    start_text end_text st)) = Some d'
      /\ date_parsed parse d d'.
Proof.
  remember (analyze_with_date_filter strptime parse start_text end_text st)
    as res eqn:E.
  unfold analyze_with_date_filter in E.
  rewrite try_except_bind in E.
  destruct (negb _); [subst res; now left|]. cbn [ret] in E.
  rewrite try_except_bind in E. unfold lift at 1, strptime_ymd at 1 in E.
  destruct (strptime start_text) as [start_date|]; [|subst res; now left].
  rewrite try_except_bind in E. unfold lift at 1, strptime_ymd at 1 in E.
  destruct (strptime end_text) as [end_date|]; [|subst res; now left].
  rewrite try_except_bind in E. unfold get_df at 1 in E.
  destruct (df st) as [d|] eqn:Hdf; [|subst res; left; simpl; now rewrite Hdf].
  rewrite try_except_bind in E. unfold lift at 1, getitem at 1 in E.
  destruct (get_loc (columns d) "Date") as [i|] eqn:Hi;
    [|subst res; left; simpl; now rewrite Hdf].
  cbn [rbind] in E.
  rewrite try_except_bind in E. unfold lift at 1 in E.
  destruct (to_datetime parse (map (cell_at i) (rows d))) as [dates|] eqn:Hd;
    [|subst res; left; simpl; now rewrite Hdf].
  rewrite try_except_bind in E. unfold get_df at 1 in E. rewrite Hdf in E.
  rewrite try_except_bind in E. unfold lift at 1, setitem at 1 in E.
  rewrite Hi in E. cbn [rbind] in E. fold (with_dates d i dates) in E.
  rewrite try_except_bind in E. unfold set_df at 1 in E.
  right. exists d, (with_dates d i dates). split; [reflexivity|].
  split; [|now apply with_dates_parsed].
  subst res.
  match goal with
  | |- df (snd (try_except ?m ?h ?s)) = _ =>
      change (df (snd (try_except m h s)) = df s)
  end.
  apply keeps_try_except; [|auto with keeps].
  repeat (apply keeps_bind; [auto with keeps | intros ?]).
  cbv zeta. auto with keeps.
Qed.

(** Whenever the conversion of line 108 is not reached or fails, the stored
    dataset is left as it was. *)
Lemma date_filter_store_unchanged (start_text end_text : string) (st : App) :
  start_text = "" \/ end_text = ""
  \/ strptime start_text = None \/ strptime end_text = None
  \/ df st = None
  \/ (exists d e, df st = Some d /\ getitem d "Date" = Raise e)
  \/ (exists d col e,
        df st = Some d /\ getitem d "Date" = Ok col
        /\ to_datetime parse col = Raise e) ->
  df (snd (analyze_with_date_filter strptime parse start_text end_text st))
  = df st.
Proof.
  intros H.
  remember (analyze_with_date_filter strptime parse start_text end_text st)
    as res eqn:E.
  unfold analyze_with_date_filter in E.
  rewrite try_except_bind in E.
  destruct (String.eqb_spec start_text "") as [Ea | Na]; cbn [negb andb] in E;
    [now subst res|].
  destruct (String.eqb_spec end_text "") as [Eb | Nb]; cbn [negb andb] in E;
    [now subst res|].
  cbn [ret] in E.
  rewrite try_except_bind in E. unfold lift at 1, strptime_ymd at 1 in E.
  destruct (strptime start_text) as [start_date|] eqn:Hs; [|now subst res].
  rewrite try_except_bind in E. unfold lift at 1, strptime_ymd at 1 in E.
  destruct (strptime end_text) as [end_date|] eqn:He; [|now subst res].
  rewrite try_except_bind in E. unfold get_df at 1 in E.
  destruct (df st) as [d|] eqn:Hdf; [|subst res; simpl; now rewrite Hdf].
  rewrite try_except_bind in E. unfold lift at 1 in E.
  destruct (getitem d "Date") as [col|e] eqn:Hcol;
    [|subst res; simpl; now rewrite Hdf].
  rewrite try_except_bind in E. unfold lift at 1 in E.
  destruct (to_datetime parse col) as [dates|e] eqn:Hd;
    [|subst res; simpl; now rewrite Hdf].
  exfalso.
  destruct H as [?|[?|[?|[?|[?|[(d0 & e & H1 & H2)|(d0 & c0 & e & H1 & H2 & H3)]]]]]];
    try congruence.
Qed.

End StoreEffects.

(** C7 (amended): the analysis never changes the stored dataset.  The
    date-filtered analysis changes it in one way only: when both entries are
    filled and parse, a dataset is loaded and its [Date] column exists and
    converts, line 108 replaces the stored [Date] column by its converted
    timestamps (same rows in the same order, all other cells untouched),
    whatever the filter then selects; when an entry is empty or malformed,
    no dataset is loaded, or the [Date] column is missing or does not
    convert, the stored dataset is left as it was. *)
Theorem C7_effects_on_store (strptime parse : string -> option Z)
    (start_text end_text : string) (st : App) :
  (forall d, df (snd (analyze_attendance d st)) = df st)
  /\ (df (snd (analyze_with_date_filter strptime parse start_text end_text st))
      = df st
      \/ exists d d',
          df st = Some d
          /\ df (snd (analyze_with_date_filter strptime parse
                        start_text end_text st)) = Some d'
          /\ date_parsed parse d d')
  /\ (forall d start_date end_date col dates,
        start_text <> "" -> end_text <> "" ->
        strptime start_text = Some start_date ->
        strptime end_text = Some end_date ->
        df st = Some d ->
        getitem d "Date" = Ok col ->
        to_datetime parse col = Ok dates ->
        exists d',
          setitem d "Date" dates = Ok d'
          /\ date_parsed parse d d'
          /\ df (snd (analyze_with_date_filter strptime parse
                        start_text end_text st)) = Some d')
  /\ (start_text = "" \/ end_text = ""
      \/ strptime start_text = None \/ strptime end_text = None
      \/ df st = None
      \/ (exists d e, df st = Some d /\ getitem d "Date" = Raise e)
      \/ (exists d col e,
            df st = Some d /\ getitem d "Date" = Ok col
            /\ to_datetime parse col = Raise e) ->
      df (snd (analyze_with_date_filter strptime parse start_text end_text st))
      = df st).
Proof.
  split; [intros d; apply keeps_analyze_attendance|].
  split; [apply date_filter_store|].
  split; [|apply date_filter_store_unchanged].
  intros d start_date end_date col dates Ha Hb Hs He Hdf Hcol Hd.
  unfold getitem in Hcol.
  destruct (get_loc (columns d) "Date") as [i|] eqn:Hi; [|discriminate].
  simpl in Hcol. injection Hcol as <-.
  exists (with_dates d i dates).
  split; [unfold setitem; now rewrite Hi|].
  split; [now apply with_dates_parsed|].
  rewrite (analyze_with_date_filter_run strptime parse _ _ start_date end_date
             _ d _ _ Ha Hb Hs He Hdf
             (filter_by_range_ok parse d start_date end_date i dates Hi Hd)).
  destruct (empty _); [reflexivity|].
  now rewrite keeps_analyze_attendance.
Qed.


(** * Further properties of the handlers *)

(** ** What an analysis shows *)

(** X2: an analysis leaves the dataset alone and adds to the events one of
    three things: the chart, the summary and the insights; a single error
    dialog (nothing was computed); or the chart and the summary followed by
    an error dialog.  It never shows insights and an error together. *)
Theorem analyze_attendance_outcomes (d : DataFrame) (st : App) :
  exists es,
    analyze_attendance d st
    = (Ok tt, {| df := df st; events := events st ++ es |})
    /\ ((exists s m pm l pl,
           attendance_summary d = Ok s /\ es = analysis_events s m pm l pl)
        \/ (exists e, es = [analysis_failed e])
        \/ (exists s e,
              attendance_summary d = Ok s
              /\ es = [ savefig "reports/attendance_summary.png" s;
                        showinfo "Attendance Summary" (SummaryLines s);
                        analysis_failed e ])).
Proof.
  unfold analyze_attendance, try_except, bind, lift, emit, ret, raise.
  destruct (issubset required_columns (columns d)); simpl;
    [|eexists; split; [reflexivity|]; right; left; eauto].
  destruct (attendance_summary d) as [s|e]; simpl;
    [|eexists; split; [reflexivity|]; right; left; eauto].
  assert (forall e,
             ((events st ++ [savefig "reports/attendance_summary.png" s])
                ++ [showinfo "Attendance Summary" (SummaryLines s)])
               ++ [analysis_failed e]
             = events st ++ [ savefig "reports/attendance_summary.png" s;
                              showinfo "Attendance Summary" (SummaryLines s);
                              analysis_failed e ]) as Hfail
      by (intros e; apply events_app3).
  unfold analysis_failed in Hfail.
  destruct (idxmax s) as [m|e]; simpl;
    [|eexists; split; [now rewrite Hfail|]; right; right; eauto].
  destruct (idxmin s) as [l|e]; simpl;
    [|eexists; split; [now rewrite Hfail|]; right; right; eauto].
  destruct (loc s m) as [pm|e]; simpl;
    [|eexists; split; [now rewrite Hfail|]; right; right; eauto].
  destruct (loc s l) as [pl|e]; simpl;
    [|eexists; split; [now rewrite Hfail|]; right; right; eauto].
  exists (analysis_events s m pm l pl). split; [now rewrite events_app3|].
  left. eauto 10.
Qed.

(** ** Uploads *)

(** X3: a cancelled file dialog changes nothing.  A file that is read becomes
    the dataset as it is, whatever the analysis then finds: its copy is
    written under data/, "File Loaded" is shown, and the rest of the run is
    the analysis of that frame. *)
Theorem load_then_analyze (file_path : string) (d : DataFrame)
    (csv : result DataFrame) (st : App) :
  file_path <> "" ->
  load_and_analyze "" csv st = (Ok tt, st)
  /\ load_and_analyze file_path (Ok d) st
     = analyze_attendance d
         {| df := Some d;
            events := events st ++
              [ to_csv ("data/" ++ basename file_path) d;
                showinfo "File Loaded" (FileLoaded (basename file_path)) ] |}
  /\ df (snd (load_and_analyze file_path (Ok d) st)) = Some d.
Proof.
  intros Hpath. apply String.eqb_neq in Hpath.
  split; [reflexivity|].
  assert (load_and_analyze file_path (Ok d) st
          = analyze_attendance d
              {| df := Some d;
                 events := events st ++
                   [ to_csv ("data/" ++ basename file_path) d;
                     showinfo "File Loaded" (FileLoaded (basename file_path)) ] |})
    as E.
  { unfold load_and_analyze. rewrite Hpath.
    rewrite try_except_bind. unfold lift at 1.
    rewrite try_except_bind. unfold set_df at 1.
    rewrite try_except_bind. unfold get_df at 1. cbn [df].
    rewrite try_except_bind. unfold emit at 1. cbn [df events].
    rewrite try_except_bind. unfold emit at 1. cbn [df events].
    rewrite try_except_bind. unfold get_df at 1. cbn [df].
    rewrite <- app_assoc. simpl app.
    apply (try_except_ok _ _ _ tt). apply analyze_attendance_returns. }
  split; [exact E|]. rewrite E. now rewrite keeps_analyze_attendance.
Qed.

Lemma load_then_analyze_witness :
  load_and_analyze "" (Ok example_records) loaded = (Ok tt, loaded)
  /\ load_and_analyze "/home/teacher/marks.csv" (Ok no_status) loaded
     = analyze_attendance no_status
         {| df := Some no_status;
            events := events loaded ++
              [ to_csv ("data/" ++ basename "/home/teacher/marks.csv") no_status;
                showinfo "File Loaded"
                  (FileLoaded (basename "/home/teacher/marks.csv")) ] |}
  /\ df (snd (load_and_analyze "/home/teacher/marks.csv" (Ok no_status) loaded))
     = Some no_status.
Proof.
  apply (load_then_analyze "/home/teacher/marks.csv" no_status
           (Ok example_records) loaded).
  discriminate.
Defined.

(** ** Failures of the date filter *)

Lemma to_datetime_fails (parse : string -> option Z) (col : list Cell)
    (s : string) :
  In (Text s) col -> parse s = None ->
  to_datetime parse col = Raise unknown_format.
Proof.
  intros Hin Hs. unfold to_datetime.
  induction col as [|c col IH]; [destruct Hin|]. simpl.
  destruct Hin as [-> | Hin].
  - simpl. now rewrite Hs.
  - rewrite (IH Hin).
    destruct c as [s'| | |]; simpl; try reflexivity. now destruct (parse s').
Qed.

Section FilterFailures.

Variable strptime : string -> option Z.
Variable parse : string -> option Z.

(** X4: when an entry is empty or does not parse as a date, the handler
    reports a ValueError ("Please enter both ..." if an entry is empty) and
    stops there: the dataset is neither needed nor changed. *)
Theorem date_filter_invalid_entries (start_text end_text : string) (st : App) :
  start_text = "" \/ end_text = ""
  \/ strptime start_text = None \/ strptime end_text = None ->
  exists e,
    (e = both_dates_needed \/ e = bad_entry)
    /\ (start_text = "" \/ end_text = "" -> e = both_dates_needed)
    /\ analyze_with_date_filter strptime parse start_text end_text st
       = (Ok tt, {| df := df st; events := events st ++ [filter_failed e] |}).
Proof.
  intros H. unfold analyze_with_date_filter. rewrite try_except_bind.
  destruct (String.eqb_spec start_text "") as [Ea | Na]; cbn [negb andb].
  { exists both_dates_needed. split; [now left|]. split; [easy|reflexivity]. }
  destruct (String.eqb_spec end_text "") as [Eb | Nb]; cbn [negb andb].
  { exists both_dates_needed. split; [now left|]. split; [easy|reflexivity]. }
  exists bad_entry. split; [now right|]. split; [intros [?|?]; contradiction|].
  cbn [ret]. rewrite try_except_bind. unfold lift at 1, strptime_ymd at 1.
  destruct (strptime start_text) as [start_date|] eqn:Hs; [|reflexivity].
  rewrite try_except_bind. unfold lift at 1, strptime_ymd at 1.
  destruct (strptime end_text) as [end_date|] eqn:He; [|reflexivity].
  destruct H as [?|[?|[?|?]]]; congruence.
Qed.

(** X5: with two valid dates and no file loaded yet, the handler reports the
    missing attribute and the application still has no dataset. *)
Theorem date_filter_without_dataset (start_text end_text : string)
    (start_date end_date : Z) (st : App) :
  start_text <> "" -> end_text <> "" ->
  strptime start_text = Some start_date ->
  strptime end_text = Some end_date ->
  df st = None ->
  analyze_with_date_filter strptime parse start_text end_text st
  = (Ok tt, {| df := None; events := events st ++ [filter_failed no_df] |}).
Proof.
  intros Ha Hb Hs He Hdf. apply String.eqb_neq in Ha, Hb.
  unfold analyze_with_date_filter.
  rewrite try_except_bind. rewrite Ha, Hb. cbn [negb andb ret].
  rewrite try_except_bind. unfold lift at 1, strptime_ymd at 1. rewrite Hs.
  rewrite try_except_bind. unfold lift at 1, strptime_ymd at 1. rewrite He.
  rewrite try_except_bind. unfold get_df at 1. rewrite Hdf.
  unfold emit. now rewrite Hdf.
Qed.

(** X6: with two valid dates and a dataset that has no [Date] column, the
    handler reports KeyError 'Date' and leaves the dataset as it is. *)
Theorem date_filter_without_date_column (start_text end_text : string)
    (start_date end_date : Z) (st : App) (d : DataFrame) :
  start_text <> "" -> end_text <> "" ->
  strptime start_text = Some start_date ->
  strptime end_text = Some end_date ->
  df st = Some d ->
  existsb (String.eqb "Date") (columns d) = false ->
  analyze_with_date_filter strptime parse start_text end_text st
  = (Ok tt, {| df := Some d;
               events := events st ++ [filter_failed (KeyError "Date")] |}).
Proof.
  intros Ha Hb Hs He Hdf Hcol. apply String.eqb_neq in Ha, Hb.
  apply get_loc_absent in Hcol.
  unfold analyze_with_date_filter.
  rewrite try_except_bind. rewrite Ha, Hb. cbn [negb andb ret].
  rewrite try_except_bind. unfold lift at 1, strptime_ymd at 1. rewrite Hs.
  rewrite try_except_bind. unfold lift at 1, strptime_ymd at 1. rewrite He.
  rewrite try_except_bind. unfold get_df at 1. rewrite Hdf.
  rewrite try_except_bind. unfold lift at 1, getitem at 1. rewrite Hcol.
  cbn [rbind]. unfold emit. now rewrite Hdf.
Qed.

(** X7: the conversion of the [Date] column is all or nothing: if one date of
    the dataset does not parse, the handler reports it and the stored
    dataset keeps all its dates as text, also those that would parse. *)
Theorem date_filter_unparseable_date (start_text end_text : string)
    (start_date end_date : Z) (st : App) (d : DataFrame) (col : list Cell)
    (s : string) :
  start_text <> "" -> end_text <> "" ->
  strptime start_text = Some start_date ->
  strptime end_text = Some end_date ->
  df st = Some d ->
  getitem d "Date" = Ok col ->
  In (Text s) col -> parse s = None ->
  analyze_with_date_filter strptime parse start_text end_text st
  = (Ok tt, {| df := Some d;
               events := events st ++ [filter_failed unknown_format] |}).
Proof.
  intros Ha Hb Hs He Hdf Hcol Hin Hparse. apply String.eqb_neq in Ha, Hb.
  pose proof (to_datetime_fails parse col s Hin Hparse) as Hfail.
  unfold analyze_with_date_filter.
  rewrite try_except_bind. rewrite Ha, Hb. cbn [negb andb ret].
  rewrite try_except_bind. unfold lift at 1, strptime_ymd at 1. rewrite Hs.
  rewrite try_except_bind. unfold lift at 1, strptime_ymd at 1. rewrite He.
  rewrite try_except_bind. unfold get_df at 1. rewrite Hdf.
  rewrite try_except_bind. unfold lift at 1. rewrite Hcol.
  rewrite try_except_bind. unfold lift at 1. rewrite Hfail.
  unfold emit. now rewrite Hdf.
Qed.

End FilterFailures.

Lemma date_filter_invalid_entries_witness :
  exists e,
    (e = both_dates_needed \/ e = bad_entry)
    /\ ("2024-01-01" = "" \/ "01/02/2024" = "" -> e = both_dates_needed)
    /\ analyze_with_date_filter iso_date iso_date "2024-01-01" "01/02/2024" fresh
       = (Ok tt, {| df := df fresh; events := events fresh ++ [filter_failed e] |}).
Proof.
  apply (date_filter_invalid_entries iso_date iso_date "2024-01-01" "01/02/2024"
           fresh).
  right. right. right. reflexivity.
Defined.

Lemma date_filter_without_dataset_witness :
  analyze_with_date_filter iso_date iso_date "2024-01-01" "2024-01-02" fresh
  = (Ok tt, {| df := None; events := events fresh ++ [filter_failed no_df] |}).
Proof.
  apply (date_filter_without_dataset iso_date iso_date "2024-01-01" "2024-01-02"
           jan1 jan2 fresh); try reflexivity; discriminate.
Defined.

Lemma date_filter_without_date_column_witness :
  analyze_with_date_filter iso_date iso_date "2024-01-01" "2024-01-02"
    {| df := Some no_date; events := [] |}
  = (Ok tt, {| df := Some no_date;
               events := [] ++ [filter_failed (KeyError "Date")] |}).
Proof.
  apply (date_filter_without_date_column iso_date iso_date
           "2024-01-01" "2024-01-02" jan1 jan2
           {| df := Some no_date; events := [] |} no_date);
    try reflexivity; discriminate.
Defined.

Lemma date_filter_unparseable_date_witness :
  analyze_with_date_filter iso_date iso_date "2024-01-01" "2024-01-02"
    {| df := Some bad_date; events := [] |}
  = (Ok tt, {| df := Some bad_date;
               events := [] ++ [filter_failed unknown_format] |}).
Proof.
  apply (date_filter_unparseable_date iso_date iso_date
           "2024-01-01" "2024-01-02" jan1 jan2
           {| df := Some bad_date; events := [] |} bad_date
           [Text "2024-01-01"; Text "first of May"] "first of May");
    try reflexivity; try discriminate.
  right. left. reflexivity.
Defined.

(** ** The frame after the conversion of the dates *)

Lemma map_zip_with_other (i j : nat) (rs : list Row) (vals : list Cell) :
  i <> j -> length vals = length rs ->
  map (cell_at j) (zip_with (fun r v => <[i := v]> (pad_to i r)) rs vals)
  = map (cell_at j) rs.
Proof.
  intros N. revert vals. induction rs as [|r rs IH]; intros [|v vals]; simpl;
    try discriminate; [reflexivity|].
  intros [= L]. now rewrite cell_at_other, IH.
Qed.

Lemma getitem_with_dates_other (d : DataFrame) (i : nat) (dates : list Cell)
    (c : string) :
  get_loc (columns d) "Date" = Ok i -> c <> "Date" ->
  length dates = length (rows d) ->
  getitem (with_dates d i dates) c = getitem d c.
Proof.
  intros Hi Hc L. unfold getitem, with_dates. simpl.
  destruct (get_loc (columns d) c) as [j|] eqn:Hj; [|reflexivity]. simpl.
  rewrite map_zip_with_other; [reflexivity| |exact L].
  intros <-. apply Hc. exact (get_loc_inj _ _ _ _ Hj Hi).
Qed.

Lemma attendance_summary_with_dates (d : DataFrame) (i : nat)
    (dates : list Cell) :
  get_loc (columns d) "Date" = Ok i -> length dates = length (rows d) ->
  attendance_summary (with_dates d i dates) = attendance_summary d.
Proof.
  intros Hi L. unfold attendance_summary.
  now rewrite !(getitem_with_dates_other d i dates) by (done || discriminate).
Qed.



Lemma analyze_attendance_same_summary (d1 d2 : DataFrame) (st : App) :
  columns d1 = columns d2 ->
  attendance_summary d1 = attendance_summary d2 ->
  analyze_attendance d1 st = analyze_attendance d2 st.
Proof. intros Hc Hs. unfold analyze_attendance. now rewrite Hc, Hs. Qed.

Lemma dated_within_cell (g : DataFrame) (i : nat) (start_date end_date : Z)
    (r : Row) :
  get_loc (columns g) "Date" = Ok i ->
  dated_within g start_date end_date r
  = cell_within start_date end_date (cell_at i r).
Proof. intros Hi. unfold dated_within, cell_within, field. now rewrite Hi. Qed.

Lemma with_dates_rows (d : DataFrame) (i : nat) (dates : list Cell) :
  forallb is_datetime dates = true ->
  Forall (fun r => (i < length r)%nat /\ is_datetime (cell_at i r) = true)
         (rows (with_dates d i dates)).
Proof.
  unfold with_dates. simpl. generalize (rows d) as rs. revert dates.
  induction dates as [|v dates IH]; intros [|r rs] F; simpl; try constructor.
  - simpl in F. apply andb_true_iff in F as [Fv F]. split.
    + rewrite length_insert. unfold pad_to.
      rewrite length_app, length_replicate. lia.
    + now rewrite cell_at_written.
  - simpl in F. apply andb_true_iff in F as [_ F]. now apply IH.
Qed.

(** On a frame whose dates are already timestamps, line 108 changes nothing
    and does not consult the parser. *)
Lemma conversion_fixed (parse : string -> option Z) (g : DataFrame) (i : nat) :
  Forall (fun r => (i < length r)%nat /\ is_datetime (cell_at i r) = true)
         (rows g) ->
  to_datetime parse (map (cell_at i) (rows g)) = Ok (map (cell_at i) (rows g))
  /\ with_dates g i (map (cell_at i) (rows g)) = g.
Proof.
  intros F. split.
  - unfold to_datetime. rewrite <- (map_id (map (cell_at i) (rows g))) at 2.
    apply mapR_total. apply Forall_forall. intros c Hc.
    apply list_elem_of_In, in_map_iff in Hc as (r & <- & Hr).
    rewrite Forall_forall in F. apply list_elem_of_In, F in Hr as (_ & D).
    now apply to_datetime_cell_fixed.
  - unfold with_dates. rewrite zip_with_in_place; [now destruct g|].
    eapply Forall_impl; [exact F|]. now intros r (L & _).
Qed.

Lemma filter_by_range_converted (parse : string -> option Z) (g : DataFrame)
    (i : nat) (start_date end_date : Z) :
  get_loc (columns g) "Date" = Ok i ->
  Forall (fun r => (i < length r)%nat /\ is_datetime (cell_at i r) = true)
         (rows g) ->
  filter_by_range parse g start_date end_date
  = Ok (g, in_range g start_date end_date).
Proof.
  intros Hi F. destruct (conversion_fixed parse g i F) as [Hd Hg].
  rewrite (filter_by_range_ok _ _ _ _ _ _ Hi Hd). now rewrite Hg.
Qed.


Lemma filter_filter_andb {A} (f g : A -> bool) (l : list A) :
  List.filter f (List.filter g l) = List.filter (fun x => g x && f x) l.
Proof.
  induction l as [|x l IH]; simpl; [reflexivity|].
  destruct (g x); simpl; [destruct (f x)|]; now rewrite IH.
Qed.

Lemma cell_within_both (s1 e1 s2 e2 : Z) (c : Cell) :
  cell_within s1 e1 c && cell_within s2 e2 c
  = cell_within (Z.max s1 s2) (Z.min e1 e2) c.
Proof.
  destruct c; simpl; try reflexivity.
  apply eq_true_iff_eq. rewrite !andb_true_iff, !Z.leb_le. lia.
Qed.

Lemma export_with_dataset (st : App) (d : DataFrame) :
  df st = Some d ->
  export_report_pdf st
  = (Ok tt, {| df := Some d; events := events st ++ report_events d |}).
Proof.
  intros Hdf. unfold export_report_pdf. rewrite Hdf.
  unfold bind, emit. simpl. rewrite Hdf. now rewrite <- app_assoc.
Qed.


(** ** The date filter followed by the analysis *)

Section FilteredAnalysis.

Variable strptime : string -> option Z.
Variable parse : string -> option Z.


(** X9: the summary does not depend on the [Date] column.  When every date
    of a non-empty dataset parses into the interval, the filter keeps every
    record and the date-filtered analysis is the analysis of the whole
    dataset, as shown when the file was loaded. *)
Theorem full_range_repeats_analysis (start_text end_text : string)
    (start_date end_date : Z) (st : App) (d : DataFrame) (col dates : list Cell) :
  start_text <> "" -> end_text <> "" ->
  strptime start_text = Some start_date ->
  strptime end_text = Some end_date ->
  df st = Some d ->
  rows d <> [] ->
  getitem d "Date" = Ok col ->
  to_datetime parse col = Ok dates ->
  forallb (cell_within start_date end_date) dates = true ->
  exists d',
    filter_by_range parse d start_date end_date = Ok (d', d')
    /\ date_parsed parse d d'
    /\ attendance_summary d' = attendance_summary d
    /\ analyze_with_date_filter strptime parse start_text end_text st
       = analyze_attendance d {| df := Some d'; events := events st |}.
Proof.
  intros Ha Hb Hs He Hdf Hrows Hcol Hd Hall.
  unfold getitem in Hcol.
  destruct (get_loc (columns d) "Date") as [i|] eqn:Hi; [|discriminate].
  simpl in Hcol. injection Hcol as <-.
  destruct (to_datetime_datetime _ _ _ Hd) as [L F]. rewrite length_map in L.
  pose proof (filter_by_range_ok parse d start_date end_date i dates Hi Hd) as Hf.
  assert (in_range (with_dates d i dates) start_date end_date
          = with_dates d i dates) as Hin.
  { unfold in_range. rewrite filter_all; [reflexivity|].
    apply Forall_forall. intros r Hr.
    rewrite (dated_within_cell _ i) by exact Hi.
    rewrite forallb_forall in Hall. apply Hall.
    rewrite <- (map_zip_with_written i (rows d) dates L).
    apply in_map. now apply list_elem_of_In. }
  rewrite Hin in Hf.
  exists (with_dates d i dates).
  split; [exact Hf|]. split; [now apply with_dates_parsed|].
  split; [now apply attendance_summary_with_dates|].
  rewrite (analyze_with_date_filter_run strptime parse _ _ _ _ _ _ _ _
             Ha Hb Hs He Hdf Hf).
  assert (empty (with_dates d i dates) = false) as ->.
  { unfold empty, with_dates. simpl.
    destruct (columns d); [discriminate|].
    destruct (rows d) as [|r rs]; [congruence|].
    destruct dates; [discriminate|reflexivity]. }
  apply analyze_attendance_same_summary; [reflexivity|].
  now apply attendance_summary_with_dates.
Qed.

(** X10: once the dates of the stored dataset have been converted, later
    date filters leave the stored dataset exactly as it is, whatever the
    bounds, and no longer consult the text parser. *)
Theorem converted_dataset_is_stable (parse' : string -> option Z)
    (start_text end_text : string) (start_date end_date : Z) (st : App)
    (d d' : DataFrame) (col dates : list Cell) :
  getitem d "Date" = Ok col ->
  to_datetime parse col = Ok dates ->
  setitem d "Date" dates = Ok d' ->
  df st = Some d' ->
  start_text <> "" -> end_text <> "" ->
  strptime start_text = Some start_date ->
  strptime end_text = Some end_date ->
  filter_by_range parse' d' start_date end_date
  = Ok (d', in_range d' start_date end_date)
  /\ df (snd (analyze_with_date_filter strptime parse' start_text end_text st))
     = Some d'.
Proof.
  intros Hcol Hd Hset Hdf Ha Hb Hs He.
  unfold getitem in Hcol. unfold setitem in Hset.
  destruct (get_loc (columns d) "Date") as [i|] eqn:Hi; [|discriminate].
  simpl in Hcol, Hset. injection Hcol as <-. injection Hset as <-.
  fold (with_dates d i dates) in *.
  destruct (to_datetime_datetime _ _ _ Hd) as [_ F].
  assert (filter_by_range parse' (with_dates d i dates) start_date end_date
          = Ok (with_dates d i dates,
                in_range (with_dates d i dates) start_date end_date)) as Hf
      by (apply (filter_by_range_converted parse' _ i);
          [exact Hi | now apply with_dates_rows]).
  split; [exact Hf|].
  rewrite (analyze_with_date_filter_run strptime parse' _ _ _ _ _ _ _ _
             Ha Hb Hs He Hdf Hf).
  destruct (empty _); [reflexivity|]. now rewrite keeps_analyze_attendance.
Qed.

(** X12: an export that follows a date-filtered analysis writes the whole
    stored dataset, not the selection: one row per record of the upload,
    with the [Date] cells as parsed timestamps. *)
Theorem export_after_date_filter (start_text end_text : string)
    (start_date end_date : Z) (st : App) (d : DataFrame) (col dates : list Cell) :
  start_text <> "" -> end_text <> "" ->
  strptime start_text = Some start_date ->
  strptime end_text = Some end_date ->
  df st = Some d ->
  getitem d "Date" = Ok col ->
  to_datetime parse col = Ok dates ->
  exists d',
    date_parsed parse d d'
    /\ export_report_pdf
         (snd (analyze_with_date_filter strptime parse start_text end_text st))
       = (Ok tt,
          {| df := Some d';
             events :=
               events (snd (analyze_with_date_filter strptime parse
                              start_text end_text st))
               ++ report_events d' |}).
Proof.
  intros Ha Hb Hs He Hdf Hcol Hd.
  unfold getitem in Hcol.
  destruct (get_loc (columns d) "Date") as [i|] eqn:Hi; [|discriminate].
  simpl in Hcol. injection Hcol as <-.
  exists (with_dates d i dates). split; [now apply with_dates_parsed|].
  apply export_with_dataset.
  rewrite (analyze_with_date_filter_run strptime parse _ _ start_date end_date
             _ d _ _ Ha Hb Hs He Hdf
             (filter_by_range_ok parse d start_date end_date i dates Hi Hd)).
  destruct (empty _); [reflexivity|]. now rewrite keeps_analyze_attendance.
Qed.

End FilteredAnalysis.

(** X11: filtering a filtered frame with other bounds is filtering the
    original frame with the intersection of the two intervals. *)
Theorem nested_filters_intersect (parse : string -> option Z)
    (d d' f : DataFrame) (s1 e1 s2 e2 : Z) :
  filter_by_range parse d s1 e1 = Ok (d', f) ->
  exists g,
    filter_by_range parse f s2 e2 = Ok (f, g)
    /\ filter_by_range parse d (Z.max s1 s2) (Z.min e1 e2) = Ok (d', g).
Proof.
  intros H. apply filter_by_range_inv in H as (i & dates & Hi & Hd & [= -> ->]).
  set (d' := with_dates d i dates).
  exists (in_range (in_range d' s1 e1) s2 e2). split.
  - apply (filter_by_range_converted parse _ i); [exact Hi|].
    eapply Forall_impl; [apply (in_range_rows_long d' s1 e1 i Hi)|].
    now intros r (L & D & _).
  - rewrite (filter_by_range_ok _ _ _ _ _ _ Hi Hd). fold d'. f_equal. f_equal.
    unfold in_range. simpl. f_equal. rewrite filter_filter_andb.
    apply filter_ext_field. intros r.
    rewrite !(dated_within_cell _ i) by exact Hi. symmetry.
    apply cell_within_both.
Qed.


Lemma full_range_repeats_analysis_witness :
  exists d',
    filter_by_range iso_date example_records jan1 jan2 = Ok (d', d')
    /\ date_parsed iso_date example_records d'
    /\ attendance_summary d' = attendance_summary example_records
    /\ analyze_with_date_filter iso_date iso_date "2024-01-01" "2024-01-02" loaded
       = analyze_attendance example_records
           {| df := Some d'; events := events loaded |}.
Proof.
  eapply (full_range_repeats_analysis iso_date iso_date "2024-01-01" "2024-01-02"
            jan1 jan2 loaded example_records);
    try reflexivity; discriminate.
Defined.

Lemma converted_dataset_is_stable_witness :
  filter_by_range (fun _ => None)
    (with_dates example_records 1 [Stamp jan1; Stamp jan2; Stamp jan1; Stamp jan2])
    jan2 jan2
  = Ok (with_dates example_records 1
          [Stamp jan1; Stamp jan2; Stamp jan1; Stamp jan2],
        in_range (with_dates example_records 1
                    [Stamp jan1; Stamp jan2; Stamp jan1; Stamp jan2]) jan2 jan2)
  /\ df (snd (analyze_with_date_filter iso_date (fun _ => None)
                "2024-01-02" "2024-01-02"
                {| df := Some (with_dates example_records 1
                                 [Stamp jan1; Stamp jan2; Stamp jan1; Stamp jan2]);
                   events := [] |}))
     = Some (with_dates example_records 1
               [Stamp jan1; Stamp jan2; Stamp jan1; Stamp jan2]).
Proof.
  apply (converted_dataset_is_stable iso_date iso_date (fun _ => None)
           "2024-01-02" "2024-01-02" jan2 jan2 _ example_records _
           [Text "2024-01-01"; Text "2024-01-02"; Text "2024-01-01";
            Text "2024-01-02"]
           [Stamp jan1; Stamp jan2; Stamp jan1; Stamp jan2]);
    try reflexivity; discriminate.
Defined.

Lemma export_after_date_filter_witness :
  exists d',
    date_parsed iso_date example_records d'
    /\ export_report_pdf
         (snd (analyze_with_date_filter iso_date iso_date
                 "2024-01-01" "2024-01-01" loaded))
       = (Ok tt,
          {| df := Some d';
             events :=
               events (snd (analyze_with_date_filter iso_date iso_date
                              "2024-01-01" "2024-01-01" loaded))
               ++ report_events d' |}).
Proof.
  eapply (export_after_date_filter iso_date iso_date "2024-01-01" "2024-01-01"
            jan1 jan1 loaded example_records);
    try reflexivity; discriminate.
Defined.

Lemma nested_filters_intersect_witness :
  exists g,
    filter_by_range iso_date
      (in_range (with_dates example_records 1
                   [Stamp jan1; Stamp jan2; Stamp jan1; Stamp jan2]) jan1 jan2)
      jan2 (jan2 + 1)
    = Ok (in_range (with_dates example_records 1
                      [Stamp jan1; Stamp jan2; Stamp jan1; Stamp jan2]) jan1 jan2,
          g)
    /\ filter_by_range iso_date example_records
         (Z.max jan1 jan2) (Z.min jan2 (jan2 + 1))
       = Ok (with_dates example_records 1
               [Stamp jan1; Stamp jan2; Stamp jan1; Stamp jan2], g).
Proof.
  apply (nested_filters_intersect iso_date example_records). reflexivity.
Defined.

(** ** Records without a student name *)

Lemma mapR_group_key_keyed (cells : list Cell) :
  forallb is_key cells = true ->
  mapR group_key cells = Ok (map key_of cells).
Proof.
  induction cells as [|c cells IH]; simpl; [reflexivity|].
  rewrite andb_true_iff. intros [T F]. destruct c; try discriminate;
    simpl; now rewrite (IH F).
Qed.

Lemma int_column_key (col : list Cell) :
  forallb is_key col = true -> int_column col = false.
Proof.
  destruct col as [|c col]; [reflexivity|]. simpl.
  rewrite andb_true_iff. intros [T _]. now destruct c.
Qed.

Lemma attendance_summary_keyed (d : DataFrame) :
  issubset required_columns (columns d) = true ->
  keyed d = true ->
  attendance_summary d = Ok (summary_of d).
Proof.
  intros Hreq Hkeyed.
  destruct (required_present _ Hreq) as (i & j & k & Hi & Hj & Hk).
  unfold attendance_summary, keyed in *.
  rewrite (getitem_field d _ i Hi) in *. rewrite (getitem_field d _ k Hk).
  simpl. rewrite (int_column_key _ Hkeyed).
  rewrite (mapR_group_key_keyed _ Hkeyed). simpl.
  unfold groupby_apply, summary_of, students, rate, records_of.
  rewrite omap_id_map.
  f_equal. apply map_ext. intros name. f_equal. f_equal.
  rewrite (map_map (field d "Student Name") key_of), map_map.
  rewrite <- select_map_filter. f_equal.
  apply map_ext. intros r. apply key_is_key_of.
Qed.

Lemma omap_key_of_text {A} (g : A -> Cell) (l : list A) :
  omap key_of (map g (List.filter (fun x => is_text (g x)) l))
  = omap key_of (map g l).
Proof.
  induction l as [|x l IH]; simpl; [reflexivity|].
  destruct (g x) as [s| | |] eqn:E; simpl.
  - rewrite E. simpl. f_equal. exact IH.
  - exact IH.
  - exact IH.
  - exact IH.
Qed.

Lemma summary_of_drop_blank (d : DataFrame) :
  summary_of (drop_blank d) = summary_of d.
Proof.
  assert (forall c r, field (drop_blank d) c r = field d c r) as Hfield
      by reflexivity.
  assert (forall k, records_of (drop_blank d) k = records_of d k) as Hrec.
  { intros k. unfold records_of, drop_blank. simpl.
    rewrite filter_filter_andb. apply filter_ext_field. intros r.
    unfold field at 2 3. simpl. fold (field d "Student Name" r).
    now destruct (field d "Student Name" r). }
  unfold summary_of.
  assert (students (drop_blank d) = students d) as ->.
  { unfold students, drop_blank. simpl.
    rewrite (map_ext (field _ "Student Name") (field d "Student Name"))
      by reflexivity.
    now rewrite omap_key_of_text. }
  apply map_ext. intros k. unfold rate. rewrite Hrec.
  f_equal.
Qed.

Lemma named_drop_blank (d : DataFrame) (i : nat) :
  get_loc (columns d) "Student Name" = Ok i -> named (drop_blank d) = true.
Proof.
  intros Hi. unfold named, getitem, drop_blank. simpl. rewrite Hi. simpl.
  apply forallb_forall. intros c Hc.
  apply in_map_iff in Hc as (r & <- & Hr). apply filter_In in Hr as [_ Hr].
  unfold field in Hr. now rewrite Hi in Hr.
Qed.

(** X13: records whose Student Name is blank are ignored: the summary and
    the whole analysis of a frame are those of the frame without these
    records. *)
Theorem blank_names_are_ignored (d : DataFrame) (st : App) :
  issubset required_columns (columns d) = true ->
  keyed d = true ->
  attendance_summary d = attendance_summary (drop_blank d)
  /\ analyze_attendance d st = analyze_attendance (drop_blank d) st
  /\ named (drop_blank d) = true.
Proof.
  intros Hreq Hkeyed.
  destruct (required_present _ Hreq) as (i & j & k & Hi & Hj & Hk).
  pose proof (named_drop_blank d i Hi) as Hn.
  assert (attendance_summary d = attendance_summary (drop_blank d)) as E.
  { rewrite (attendance_summary_keyed d Hreq Hkeyed).
    rewrite (attendance_summary_named (drop_blank d) Hreq Hn).
    now rewrite summary_of_drop_blank. }
  split; [exact E|]. split; [|exact Hn].
  now apply analyze_attendance_same_summary.
Qed.

Lemma blank_names_are_ignored_witness :
  attendance_summary with_blank = attendance_summary (drop_blank with_blank)
  /\ analyze_attendance with_blank fresh
     = analyze_attendance (drop_blank with_blank) fresh
  /\ named (drop_blank with_blank) = true.
Proof.
  apply (blank_names_are_ignored with_blank fresh); reflexivity.
Defined.

Example with_blank_summary :
  attendance_summary with_blank = Ok [("Alice", 100 # 2)].
Proof. reflexivity. Qed.

(** ** Full and zero attendance *)





